(** * Market health scoring engine: a shallow embedding and its properties

    The TypeScript services of the market-health API (liquidity, volatility,
    volume, health and risk scoring, the result cache, the stream store and
    the cache key of the comparison route) are transcribed here function by
    function, under the names they have in the source.

    Numbers.  A JavaScript [number] is modelled by an exact rational [Q];
    epoch-millisecond time stamps and sequence numbers, which are integers,
    by [Z].  Arithmetic is therefore exact: binary64 rounding, [NaN] and
    the infinities are not represented, and a division by zero, which the
    services guard against except in [calculatePriceChanges], gives 0.
    The three runtime functions whose results are not rational operations
    ([parseFloat], [Math.log10], [Math.sqrt]) are the fields of the class
    [Runtime]; every general theorem holds for all instances of it, and
    [decimalRuntime] is an executable instance used to evaluate the
    services on concrete inputs.  The numbered theorems (C1 to C10, X1 to
    X30) state orders, bounds, structural facts and equations between the
    expressions of the source, which hold under binary64 rounding as well;
    identities that only exact arithmetic has are kept to the auxiliary
    lemmas.  Concrete order books, among
    them the tight-book scenario whose spread percentage sits on a
    threshold, are evaluated on primitive binary64 numbers ([Binary64]),
    as JavaScript computes them.

    Time.  [Date.now()] is an explicit argument [now], read once per call.

    State.  The cache and the stream store are values threaded through
    their operations; their [Map]s are finite maps keyed by strings. *)

From Stdlib Require Import ZArith QArith Qround Qminmax Qabs Qpower Lia Lqa.
From Stdlib Require Import Ascii.
From Stdlib Require Import Floats.PrimFloat.
From Stdlib Require Uint63.
From stdpp Require Import gmap strings list sorting pretty.

Local Open Scope Z_scope.

(** ** The JavaScript runtime

    [Math_log10] and [Math_sqrt] stand for [Math.log10] and [Math.sqrt]
    where these return a number, that is on positive and on non-negative
    arguments; elsewhere JavaScript returns [NaN] or [-Infinity] and the
    fields are left unconstrained.  [parseFloat] stands for the function
    on the strings that hold a number. *)

Class Runtime := {
  parseFloat : string -> Q;
  Math_log10 : Q -> Q;
  Math_sqrt : Q -> Q
}.

(** [a < b] on numbers. *)
Definition Qlt_bool (a b : Q) : bool := negb (Qle_bool b a).

Definition Math_abs (x : Q) : Q := Qabs x.
Definition Math_max (x y : Q) : Q := Qmax x y.
Definition Math_min (x y : Q) : Q := Qmin x y.

(** [Math.round] rounds to the nearest integer, ties towards plus infinity. *)
Definition Math_round (x : Q) : Q := inject_Z (Qfloor (x + (1 # 2))).

(** [Math.pow] at an integer exponent. *)
Definition Math_pow (x : Q) (n : Z) : Q := Qpower x n.

(** ** An executable runtime

    Decimal strings are read exactly; [Math.sqrt] and [Math.log10] are
    computed in fixed point (twelve and six decimal places) and are exact
    on perfect squares and on powers of ten. *)

Module DecimalRuntime.

Definition digit_of (a : ascii) : option Z :=
  let n := Z.of_nat (nat_of_ascii a) - 48 in
  if (0 <=? n) && (n <=? 9) then Some n else None.

(** Reads the leading digits of [s] into the numerator [num], multiplying
    [den] by ten for each digit when [scale] is set. *)
Fixpoint read_digits (scale : bool) (s : string) (num : Z) (den : positive)
  : Z * positive * string :=
  match s with
  | String a rest =>
      match digit_of a with
      | Some d =>
          read_digits scale rest (10 * num + d)
            (if scale then (10 * den)%positive else den)
      | None => (num, den, s)
      end
  | EmptyString => (num, den, s)
  end.

(** The decimal prefix [[+-]digits[.digits]] of a string; a string without
    digits reads as 0 (JavaScript returns [NaN] there). *)
Definition parse_decimal (s : string) : Q :=
  let '(neg, s1) :=
    match s with
    | String "-" rest => (true, rest)
    | String "+" rest => (false, rest)
    | _ => (false, s)
    end in
  let '(ip, _, s2) := read_digits false s1 0 1 in
  let '(n, d, _) :=
    match s2 with
    | String "." rest => read_digits true rest ip 1
    | _ => (ip, 1%positive, s2)
    end in
  let q := Qred (n # d) in
  if neg then Qopp q else q.

Definition sqrt_scale : Z := 10 ^ 12.

(** sqrt (n/d) = sqrt (n*d) / d, taken on integers scaled by 10^12. *)
Definition sqrt_fixed (q : Q) : Q :=
  if Qle_bool q 0 then 0%Q
  else
    let n := Qnum q in
    let d := Z.pos (Qden q) in
    Qred (Z.sqrt (n * d * sqrt_scale * sqrt_scale) # Z.to_pos (d * sqrt_scale)).

(** Divides [x] by ten while it is at least ten; returns the count and the
    remainder in [1, 10). *)
Fixpoint log10_int (fuel : nat) (x : Q) : Z * Q :=
  match fuel with
  | O => (0, x)
  | S f =>
      if Qle_bool 10 x
      then let '(k, r) := log10_int f (Qred (x / 10)) in (k + 1, r)
      else (0, x)
  end.

Definition truncate18 (x : Q) : Q :=
  Qred (Qfloor (x * inject_Z (10 ^ 18)) # Z.to_pos (10 ^ 18)).

(** Decimal digits of log10 x for x in [1, 10): the next digit of the
    logarithm is the integer part of log10 (x^10). *)
Fixpoint log10_frac (digits : nat) (x : Q) : Q :=
  match digits with
  | O => 0%Q
  | S n =>
      let '(d, r) := log10_int 10 (truncate18 (Qpower x 10)) in
      Qred ((inject_Z d + log10_frac n r) / 10)
  end.

Definition log10_ge1 (x : Q) : Q :=
  let fuel := S (Z.to_nat (Z.log2 (Qceiling x))) in
  let '(k, r) := log10_int fuel x in
  Qred (inject_Z k + log10_frac 6 r).

(** log10 is taken as 0 on non-positive arguments (JavaScript returns
    [-Infinity] or [NaN] there). *)
Definition log10_fixed (x : Q) : Q :=
  if Qle_bool x 0 then 0%Q
  else if Qle_bool 1 x then log10_ge1 x
  else Qopp (log10_ge1 (Qred (Qinv x))).

End DecimalRuntime.

Definition decimalRuntime : Runtime := {|
  parseFloat := DecimalRuntime.parse_decimal;
  Math_log10 := DecimalRuntime.log10_fixed;
  Math_sqrt := DecimalRuntime.sqrt_fixed
|}.

(** ** Data model (types/index.ts) *)

Module PriceLevel.
Record t := mk {
  price : string;
  quantity : string;
  timestamp : Z
}.
End PriceLevel.

Module OrderbookData.
Record t := mk {
  buys : list PriceLevel.t;
  sells : list PriceLevel.t;
  sequence : Z
}.
End OrderbookData.

Module PositionDelta.
Record t := mk {
  tradeDirection : string;
  executionPrice : string;
  executionQuantity : string;
  executionMargin : string
}.
End PositionDelta.

Module Trade.
Record t := mk {
  orderHash : string;
  subaccountId : string;
  marketId : string;
  tradeExecutionType : string;
  positionDelta : PositionDelta.t;
  payout : string;
  fee : string;
  executedAt : Z;
  feeRecipient : string;
  tradeId : string;
  executionSide : string
}.
End Trade.

Module LiquidityMetrics.
Record t := mk {
  score : Q;
  bidDepth : Q;
  askDepth : Q;
  totalDepth : Q;
  depth1Percent : Q;
  depth5Percent : Q;
  spread : Q;
  spreadPercent : Q;
  midPrice : Q;
  timestamp : Z
}.
End LiquidityMetrics.

Module VolatilityLevel.
Inductive t := LOW | MODERATE | HIGH | EXTREME.
End VolatilityLevel.

Module VolatilityMetrics.
Record t := mk {
  score : Q;
  volatility : Q;
  volatilityPercent : Q;
  level : VolatilityLevel.t;
  priceChanges : list Q;
  standardDeviation : Q;
  meanPrice : Q;
  timestamp : Z
}.
End VolatilityMetrics.

Module VolumeMetrics.
Record t := mk {
  score : Q;
  volume24h : Q;
  volumeChange : Q;
  tradeCount : Q;
  averageTradeSize : Q;
  timestamp : Z
}.
End VolumeMetrics.

Module HealthStatus.
Inductive t := HEALTHY | WARNING | CRITICAL.
End HealthStatus.

Module HealthComponents.
Record t := mk {
  liquidity : Q;
  volatility : Q;
  volume : Q;
  spread : Q
}.
End HealthComponents.

Module HealthScore.
Record t := mk {
  score : Q;
  status : HealthStatus.t;
  components : HealthComponents.t;
  recommendation : string;
  timestamp : Z
}.
End HealthScore.

Module RiskLevel.
Inductive t := LOW | MEDIUM | HIGH | EXTREME.
End RiskLevel.

Module RiskFactors.
Record t := mk {
  liquidityRisk : Q;
  volatilityRisk : Q;
  spreadRisk : Q;
  volumeRisk : Q
}.
End RiskFactors.

Module RiskMetrics.
Record t := mk {
  score : Q;
  level : RiskLevel.t;
  factors : RiskFactors.t;
  warnings : list string;
  timestamp : Z
}.
End RiskMetrics.

(** ** LiquidityService *)

Module LiquidityService.
Section WithRuntime.
Context {rt : Runtime}.
Local Open Scope Q_scope.

Definition calculateMidPrice (orderbook : OrderbookData.t) : Q :=
  let bestBid :=
    match OrderbookData.buys orderbook with
    | l :: _ => parseFloat (PriceLevel.price l)
    | [] => 0
    end in
  let bestAsk :=
    match OrderbookData.sells orderbook with
    | l :: _ => parseFloat (PriceLevel.price l)
    | [] => 0
    end in
  if Qeq_bool bestBid 0 || Qeq_bool bestAsk 0 then 0
  else (bestBid + bestAsk) / 2.

Definition calculateSpread (orderbook : OrderbookData.t) : Q :=
  let bestBid :=
    match OrderbookData.buys orderbook with
    | l :: _ => parseFloat (PriceLevel.price l)
    | [] => 0
    end in
  let bestAsk :=
    match OrderbookData.sells orderbook with
    | l :: _ => parseFloat (PriceLevel.price l)
    | [] => 0
    end in
  Math_abs (bestAsk - bestBid).

Definition calculateDepth (levels : list PriceLevel.t) : Q :=
  fold_left (fun sum level => sum + parseFloat (PriceLevel.quantity level))
    levels 0.

Definition calculateDepthAtPercent
    (orderbook : OrderbookData.t) (midPrice percent : Q) : Q :=
  let upperBound := midPrice * (1 + percent) in
  let lowerBound := midPrice * (1 - percent) in
  let bidDepth :=
    fold_left (fun sum level => sum + parseFloat (PriceLevel.quantity level))
      (List.filter
         (fun level => Qle_bool lowerBound (parseFloat (PriceLevel.price level)))
         (OrderbookData.buys orderbook)) 0 in
  let askDepth :=
    fold_left (fun sum level => sum + parseFloat (PriceLevel.quantity level))
      (List.filter
         (fun level => Qle_bool (parseFloat (PriceLevel.price level)) upperBound)
         (OrderbookData.sells orderbook)) 0 in
  bidDepth + askDepth.

Definition calculateLiquidityScore
    (totalDepth spreadPercent depth1Percent depth5Percent : Q) : Q :=
  let w_spread := 0.4 in
  let w_depth := 0.3 in
  let w_depth1 := 0.15 in
  let w_depth5 := 0.15 in
  let spreadScore := Math_max 0 (100 - spreadPercent * 20) in
  let depthScore := Math_min 100 (Math_log10 (totalDepth + 1) * 20) in
  let depth1Score := Math_min 100 (Math_log10 (depth1Percent + 1) * 25) in
  let depth5Score := Math_min 100 (Math_log10 (depth5Percent + 1) * 20) in
  let totalScore :=
    spreadScore * w_spread +
    depthScore * w_depth +
    depth1Score * w_depth1 +
    depth5Score * w_depth5 in
  Math_round (Math_max 0 (Math_min 100 totalScore)).

Definition calculateLiquidity (now : Z) (orderbook : OrderbookData.t)
  : LiquidityMetrics.t :=
  let midPrice := calculateMidPrice orderbook in
  let spread := calculateSpread orderbook in
  let spreadPercent :=
    if Qlt_bool 0 midPrice then (spread / midPrice) * 100 else 0 in
  let bidDepth := calculateDepth (OrderbookData.buys orderbook) in
  let askDepth := calculateDepth (OrderbookData.sells orderbook) in
  let totalDepth := bidDepth + askDepth in
  let depth1Percent := calculateDepthAtPercent orderbook midPrice 0.01 in
  let depth5Percent := calculateDepthAtPercent orderbook midPrice 0.05 in
  let score :=
    calculateLiquidityScore totalDepth spreadPercent depth1Percent depth5Percent in
  {| LiquidityMetrics.score := score;
     LiquidityMetrics.bidDepth := bidDepth;
     LiquidityMetrics.askDepth := askDepth;
     LiquidityMetrics.totalDepth := totalDepth;
     LiquidityMetrics.depth1Percent := depth1Percent;
     LiquidityMetrics.depth5Percent := depth5Percent;
     LiquidityMetrics.spread := spread;
     LiquidityMetrics.spreadPercent := spreadPercent;
     LiquidityMetrics.midPrice := midPrice;
     LiquidityMetrics.timestamp := now |}.

End WithRuntime.
End LiquidityService.

(** ** HealthService *)

Module HealthService.
Local Open Scope Q_scope.

Definition calculateSpreadScore (spreadPercent : Q) : Q :=
  if Qlt_bool spreadPercent 0.1 then 100
  else if Qlt_bool spreadPercent 0.5 then 80
  else if Qlt_bool spreadPercent 1.0 then 60
  else if Qlt_bool spreadPercent 2.0 then 40
  else if Qlt_bool spreadPercent 5.0 then 20
  else 10.

Definition calculateOverallScore (components : HealthComponents.t) : Q :=
  let w_liquidity := 0.35 in
  let w_volatility := 0.25 in
  let w_volume := 0.25 in
  let w_spread := 0.15 in
  let weightedScore :=
    HealthComponents.liquidity components * w_liquidity +
    HealthComponents.volatility components * w_volatility +
    HealthComponents.volume components * w_volume +
    HealthComponents.spread components * w_spread in
  Math_round (Math_max 0 (Math_min 100 weightedScore)).

Definition determineStatus (score : Q) : HealthStatus.t :=
  if Qle_bool 70 score then HealthStatus.HEALTHY
  else if Qle_bool 40 score then HealthStatus.WARNING
  else HealthStatus.CRITICAL.

Definition generateRecommendation
    (status : HealthStatus.t) (components : HealthComponents.t)
    (volatilityLevel : VolatilityLevel.t) : string :=
  let issues : list string :=
    (if Qlt_bool (HealthComponents.liquidity components) 50
     then ["low liquidity"%string] else []) ++
    (if Qlt_bool (HealthComponents.volatility components) 50
     then ["high volatility"%string] else []) ++
    (if Qlt_bool (HealthComponents.volume components) 50
     then ["low volume"%string] else []) ++
    (if Qlt_bool (HealthComponents.spread components) 50
     then ["wide spread"%string] else []) in
  match status with
  | HealthStatus.HEALTHY =>
      match volatilityLevel with
      | VolatilityLevel.EXTREME =>
          "✅ Market is healthy but volatility is extreme. Use limit orders and monitor closely."%string
      | _ =>
          "✅ Market is healthy and suitable for trading. Normal trading conditions apply."%string
      end
  | HealthStatus.WARNING =>
      let issueList :=
        match issues with
        | [] => ""%string
        | _ => " (" +:+ String.concat ", " issues +:+ ")"
        end in
      "⚠️ Exercise caution" +:+ issueList +:+
      ". Consider using limit orders and smaller position sizes."
  | HealthStatus.CRITICAL =>
      let issueList :=
        match issues with
        | [] => ""%string
        | _ => " Issues: " +:+ String.concat ", " issues +:+ "."
        end in
      "🔴 High risk market conditions." +:+ issueList +:+
      " Avoid trading or use extreme caution with small positions and tight stop losses."
  end.

Definition calculateHealth (now : Z)
    (liquidity : LiquidityMetrics.t) (volatility : VolatilityMetrics.t)
    (volume : VolumeMetrics.t) : HealthScore.t :=
  let components :=
    {| HealthComponents.liquidity := LiquidityMetrics.score liquidity;
       HealthComponents.volatility := VolatilityMetrics.score volatility;
       HealthComponents.volume := VolumeMetrics.score volume;
       HealthComponents.spread :=
         calculateSpreadScore (LiquidityMetrics.spreadPercent liquidity) |} in
  let score := calculateOverallScore components in
  let status := determineStatus score in
  let recommendation :=
    generateRecommendation status components (VolatilityMetrics.level volatility) in
  {| HealthScore.score := score;
     HealthScore.status := status;
     HealthScore.components := components;
     HealthScore.recommendation := recommendation;
     HealthScore.timestamp := now |}.

End HealthService.

(** ** RiskService *)

Module RiskService.
Local Open Scope Q_scope.

Definition calculateLiquidityRisk (liquidity : LiquidityMetrics.t) : Q :=
  100 - LiquidityMetrics.score liquidity.

Definition calculateVolatilityRisk (volatility : VolatilityMetrics.t) : Q :=
  100 - VolatilityMetrics.score volatility.

Definition calculateSpreadRisk (liquidity : LiquidityMetrics.t) : Q :=
  let spreadPercent := LiquidityMetrics.spreadPercent liquidity in
  if Qlt_bool spreadPercent 0.1 then 10
  else if Qlt_bool spreadPercent 0.5 then 30
  else if Qlt_bool spreadPercent 1.0 then 50
  else if Qlt_bool spreadPercent 2.0 then 70
  else 90.

Definition calculateVolumeRisk (volume : VolumeMetrics.t) : Q :=
  100 - VolumeMetrics.score volume.

Definition calculateOverallRiskScore (factors : RiskFactors.t) : Q :=
  let w_liquidity := 0.35 in
  let w_volatility := 0.30 in
  let w_spread := 0.20 in
  let w_volume := 0.15 in
  let weightedScore :=
    RiskFactors.liquidityRisk factors * w_liquidity +
    RiskFactors.volatilityRisk factors * w_volatility +
    RiskFactors.spreadRisk factors * w_spread +
    RiskFactors.volumeRisk factors * w_volume in
  Math_round (Math_max 0 (Math_min 100 weightedScore)).

Definition classifyRiskLevel (score : Q) : RiskLevel.t :=
  if Qlt_bool score 25 then RiskLevel.LOW
  else if Qlt_bool score 50 then RiskLevel.MEDIUM
  else if Qlt_bool score 75 then RiskLevel.HIGH
  else RiskLevel.EXTREME.

Definition generateWarnings
    (factors : RiskFactors.t) (liquidity : LiquidityMetrics.t)
    (volatility : VolatilityMetrics.t) (volume : VolumeMetrics.t)
  : list string :=
  (if Qlt_bool 70 (RiskFactors.liquidityRisk factors)
   then ["⚠️ Very low liquidity - high slippage risk"%string]
   else if Qlt_bool 50 (RiskFactors.liquidityRisk factors)
   then ["⚠️ Low liquidity - moderate slippage risk"%string]
   else []) ++
  (if Qlt_bool 2.0 (LiquidityMetrics.spreadPercent liquidity)
   then ["⚠️ Extremely wide spread - poor pricing"%string]
   else if Qlt_bool 1.0 (LiquidityMetrics.spreadPercent liquidity)
   then ["⚠️ Wide spread - high transaction costs"%string]
   else []) ++
  (match VolatilityMetrics.level volatility with
   | VolatilityLevel.EXTREME => ["🔴 Extreme price volatility detected"%string]
   | VolatilityLevel.HIGH => ["⚠️ High price volatility"%string]
   | _ => []
   end) ++
  (if Qlt_bool (VolumeMetrics.tradeCount volume) 10
   then ["⚠️ Very low trading activity"%string] else []) ++
  (if Qlt_bool (VolumeMetrics.volumeChange volume) (-50)
   then ["📉 Significant volume decrease"%string] else []) ++
  (if Qlt_bool (LiquidityMetrics.depth1Percent liquidity) 1000
   then ["⚠️ Shallow orderbook depth"%string] else []).

Definition calculateRisk (now : Z)
    (liquidity : LiquidityMetrics.t) (volatility : VolatilityMetrics.t)
    (volume : VolumeMetrics.t) : RiskMetrics.t :=
  let liquidityRisk := calculateLiquidityRisk liquidity in
  let volatilityRisk := calculateVolatilityRisk volatility in
  let spreadRisk := calculateSpreadRisk liquidity in
  let volumeRisk := calculateVolumeRisk volume in
  let factors :=
    {| RiskFactors.liquidityRisk := liquidityRisk;
       RiskFactors.volatilityRisk := volatilityRisk;
       RiskFactors.spreadRisk := spreadRisk;
       RiskFactors.volumeRisk := volumeRisk |} in
  let riskScore := calculateOverallRiskScore factors in
  let level := classifyRiskLevel riskScore in
  let warnings := generateWarnings factors liquidity volatility volume in
  {| RiskMetrics.score := riskScore;
     RiskMetrics.level := level;
     RiskMetrics.factors := factors;
     RiskMetrics.warnings := warnings;
     RiskMetrics.timestamp := now |}.

End RiskService.

(** ** VolatilityService *)

Module VolatilityService.
Section WithRuntime.
Context {rt : Runtime}.
Local Open Scope Q_scope.

(** The loop over [i = 1 .. length - 1] pushing the percent change between
    [prices[i - 1]] and [prices[i]]. *)
Fixpoint calculatePriceChanges (prices : list Q) : list Q :=
  match prices with
  | prev :: rest =>
      match rest with
      | cur :: _ => ((cur - prev) / prev) * 100 :: calculatePriceChanges rest
      | [] => []
      end
  | [] => []
  end.

Definition calculateMean (values : list Q) : Q :=
  if Nat.eqb (length values) 0 then 0
  else
    let sum := fold_left (fun acc val => acc + val) values 0 in
    sum / inject_Z (Z.of_nat (length values)).

Definition calculateStandardDeviation (values : list Q) (mean : Q) : Q :=
  if Nat.eqb (length values) 0 then 0
  else
    let squaredDiffs := List.map (fun value => Math_pow (value - mean) 2) values in
    let variance := calculateMean squaredDiffs in
    Math_sqrt variance.

Definition classifyVolatilityLevel (volatilityPercent : Q) : VolatilityLevel.t :=
  if Qlt_bool volatilityPercent 1 then VolatilityLevel.LOW
  else if Qlt_bool volatilityPercent 3 then VolatilityLevel.MODERATE
  else if Qlt_bool volatilityPercent 7 then VolatilityLevel.HIGH
  else VolatilityLevel.EXTREME.

(** The [default] arm of the source's [switch] (score 50) is not
    reachable at the four values of the level type. *)
Definition calculateVolatilityScore
    (volatilityPercent : Q) (level : VolatilityLevel.t) : Q :=
  let score :=
    match level with
    | VolatilityLevel.LOW => 100 - (volatilityPercent * 10)
    | VolatilityLevel.MODERATE => 80 - ((volatilityPercent - 1) * 15)
    | VolatilityLevel.HIGH => 50 - ((volatilityPercent - 3) * 8)
    | VolatilityLevel.EXTREME => Math_max 0 (30 - ((volatilityPercent - 7) * 3))
    end in
  Math_round (Math_max 0 (Math_min 100 score)).

Definition getDefaultMetrics (now : Z) : VolatilityMetrics.t :=
  {| VolatilityMetrics.score := 0;
     VolatilityMetrics.volatility := 0;
     VolatilityMetrics.volatilityPercent := 0;
     VolatilityMetrics.level := VolatilityLevel.LOW;
     VolatilityMetrics.priceChanges := [];
     VolatilityMetrics.standardDeviation := 0;
     VolatilityMetrics.meanPrice := 0;
     VolatilityMetrics.timestamp := now |}.

(** The cut-off of the window and the filter predicate
    [trade.executedAt >= cutoffTime]. *)
Definition cutoffTime (now : Z) (windowMinutes : Q) : Q :=
  let windowMs := windowMinutes * 60 * 1000 in
  inject_Z now - windowMs.

Definition inWindow (now : Z) (windowMinutes : Q) (trade : Trade.t) : bool :=
  Qle_bool (cutoffTime now windowMinutes) (inject_Z (Trade.executedAt trade)).

(** [windowMinutes] is an optional argument with default 60. *)
Definition calculateVolatility
    (now : Z) (trades : list Trade.t) (windowMinutes : option Q)
  : VolatilityMetrics.t :=
  let windowMinutes := default 60 windowMinutes in
  let recentTrades := List.filter (inWindow now windowMinutes) trades in
  if Nat.eqb (length recentTrades) 0 then getDefaultMetrics now
  else
    let prices :=
      List.map
        (fun t => parseFloat (PositionDelta.executionPrice (Trade.positionDelta t)))
        recentTrades in
    let priceChanges := calculatePriceChanges prices in
    let meanPrice := calculateMean prices in
    let standardDeviation := calculateStandardDeviation prices meanPrice in
    let volatility := standardDeviation in
    let volatilityPercent :=
      if Qlt_bool 0 meanPrice then (volatility / meanPrice) * 100 else 0 in
    let level := classifyVolatilityLevel volatilityPercent in
    let score := calculateVolatilityScore volatilityPercent level in
    {| VolatilityMetrics.score := score;
       VolatilityMetrics.volatility := volatility;
       VolatilityMetrics.volatilityPercent := volatilityPercent;
       VolatilityMetrics.level := level;
       VolatilityMetrics.priceChanges := priceChanges;
       VolatilityMetrics.standardDeviation := standardDeviation;
       VolatilityMetrics.meanPrice := meanPrice;
       VolatilityMetrics.timestamp := now |}.

End WithRuntime.
End VolatilityService.

(** ** VolumeService *)

Module VolumeService.
Section WithRuntime.
Context {rt : Runtime}.
Local Open Scope Q_scope.

Definition notional (trades : list Trade.t) : Q :=
  fold_left
    (fun sum trade =>
       let price := parseFloat (PositionDelta.executionPrice (Trade.positionDelta trade)) in
       let quantity :=
         parseFloat (PositionDelta.executionQuantity (Trade.positionDelta trade)) in
       sum + (price * quantity))
    trades 0.

Definition calculateVolumeScore (volume24h tradeCount volumeChange : Q) : Q :=
  let w_volume := 0.5 in
  let w_tradeCount := 0.3 in
  let w_growth := 0.2 in
  let volumeScore := Math_min 100 (Math_log10 (volume24h + 1) * 15) in
  let tradeCountScore := Math_min 100 (Math_log10 (tradeCount + 1) * 30) in
  let growthScore :=
    if Qlt_bool 0 volumeChange then Math_min 100 (50 + volumeChange * 2)
    else Math_max 0 (50 + volumeChange * 2) in
  let totalScore :=
    volumeScore * w_volume +
    tradeCountScore * w_tradeCount +
    growthScore * w_growth in
  Math_round (Math_max 0 (Math_min 100 totalScore)).

Definition getDefaultMetrics (now : Z) : VolumeMetrics.t :=
  {| VolumeMetrics.score := 0;
     VolumeMetrics.volume24h := 0;
     VolumeMetrics.volumeChange := 0;
     VolumeMetrics.tradeCount := 0;
     VolumeMetrics.averageTradeSize := 0;
     VolumeMetrics.timestamp := now |}.

(** [period24hTrades] is an optional argument. *)
Definition calculateVolume
    (now : Z) (trades : list Trade.t) (period24hTrades : option (list Trade.t))
  : VolumeMetrics.t :=
  let last24h := (now - (24 * 60 * 60 * 1000))%Z in
  let recentTrades :=
    List.filter (fun trade => Z.leb last24h (Trade.executedAt trade)) trades in
  if Nat.eqb (length recentTrades) 0 then getDefaultMetrics now
  else
    let volume24h := notional recentTrades in
    let volumeChange :=
      match period24hTrades with
      | Some ((_ :: _) as previous) =>
          let prevVolume := notional previous in
          if Qlt_bool 0 prevVolume
          then ((volume24h - prevVolume) / prevVolume) * 100
          else 0
      | _ => 0
      end in
    let tradeCount := inject_Z (Z.of_nat (length recentTrades)) in
    let averageTradeSize :=
      if Qlt_bool 0 tradeCount then volume24h / tradeCount else 0 in
    let score := calculateVolumeScore volume24h tradeCount volumeChange in
    {| VolumeMetrics.score := score;
       VolumeMetrics.volume24h := volume24h;
       VolumeMetrics.volumeChange := volumeChange;
       VolumeMetrics.tradeCount := tradeCount;
       VolumeMetrics.averageTradeSize := averageTradeSize;
       VolumeMetrics.timestamp := now |}.

End WithRuntime.
End VolumeService.

(** ** Cache (utils/cache.ts) *)

Module CacheEntry.
Record t (T : Type) := mk {
  data : T;
  timestamp : Z;
  ttl : Q
}.
Arguments mk {T} _ _ _.
Arguments data {T} _.
Arguments timestamp {T} _.
Arguments ttl {T} _.
End CacheEntry.

Module CacheStats.
Record t := mk {
  hits : nat;
  misses : nat;
  sets : nat
}.
End CacheStats.

Module Cache.
Section WithData.
Context {T : Type}.
(** [config.cacheTTL], the default time-to-live in seconds. *)
Variable cacheTTL : Q.
Local Open Scope Q_scope.

Record t := mk {
  store : gmap string (CacheEntry.t T);
  stats : CacheStats.t
}.

Definition empty : t := mk ∅ (CacheStats.mk 0 0 0).

Definition set (key : string) (data : T) (ttlSeconds : option Q) (now : Z)
    (c : t) : t :=
  let ttlSeconds := default cacheTTL ttlSeconds in
  {| store :=
       <[key := CacheEntry.mk data now (ttlSeconds * 1000)]> (store c);
     stats :=
       CacheStats.mk (CacheStats.hits (stats c)) (CacheStats.misses (stats c))
         (S (CacheStats.sets (stats c))) |}.

Definition get (key : string) (now : Z) (c : t) : option T * t :=
  match store c !! key with
  | None =>
      (None,
       {| store := store c;
          stats :=
            CacheStats.mk (CacheStats.hits (stats c))
              (S (CacheStats.misses (stats c))) (CacheStats.sets (stats c)) |})
  | Some entry =>
      let age := inject_Z (now - CacheEntry.timestamp entry) in
      if Qlt_bool (CacheEntry.ttl entry) age then
        (None,
         {| store := delete key (store c);
            stats :=
              CacheStats.mk (CacheStats.hits (stats c))
                (S (CacheStats.misses (stats c))) (CacheStats.sets (stats c)) |})
      else
        (Some (CacheEntry.data entry),
         {| store := store c;
            stats :=
              CacheStats.mk (S (CacheStats.hits (stats c)))
                (CacheStats.misses (stats c)) (CacheStats.sets (stats c)) |})
  end.

Definition delete (key : string) (c : t) : bool * t :=
  (bool_decide (is_Some (store c !! key)),
   {| store := base.delete key (store c); stats := stats c |}).

Definition clear (c : t) : t := {| store := ∅; stats := stats c |}.

Definition cleanup (now : Z) (c : t) : t :=
  {| store :=
       filter
         (fun kv =>
            Qlt_bool (CacheEntry.ttl kv.2)
              (inject_Z (now - CacheEntry.timestamp kv.2)) = false)
         (store c);
     stats := stats c |}.

(** The object [getStats()] returns. *)
Record Stats := mkStats {
  stats_hits : nat;
  stats_misses : nat;
  stats_sets : nat;
  stats_total : nat;
  stats_hitRate : Q;
  stats_size : nat
}.

Definition getStats (c : t) : Stats :=
  let total := (CacheStats.hits (stats c) + CacheStats.misses (stats c))%nat in
  {| stats_hits := CacheStats.hits (stats c);
     stats_misses := CacheStats.misses (stats c);
     stats_sets := CacheStats.sets (stats c);
     stats_total := total;
     stats_hitRate :=
       if Nat.ltb 0 total
       then (inject_Z (Z.of_nat (CacheStats.hits (stats c)))
             / inject_Z (Z.of_nat total)) * 100
       else 0;
     stats_size := size (store c) |}.

End WithData.
Arguments t : clear implicits.
End Cache.

(** ** StreamStore and the order-book stream callback (StreamingService) *)

Module StreamStore.

Record t := mk {
  orderbooks : gmap string OrderbookData.t;
  trades : gmap string (list Trade.t)
}.

Definition MAX_TRADES_PER_MARKET : nat := 100.

Definition empty : t := mk ∅ ∅.

Definition setOrderbook (marketId : string) (orderbook : OrderbookData.t)
    (s : t) : t :=
  {| orderbooks := <[marketId := orderbook]> (orderbooks s);
     trades := trades s |}.

Definition getOrderbook (marketId : string) (s : t) : option OrderbookData.t :=
  orderbooks s !! marketId.

Definition addTrade (marketId : string) (trade : Trade.t) (s : t) : t :=
  let existing := default [] (trades s !! marketId) in
  let existing := trade :: existing in
  let existing :=
    if Nat.ltb MAX_TRADES_PER_MARKET (length existing)
    then removelast existing else existing in
  {| orderbooks := orderbooks s;
     trades := <[marketId := existing]> (trades s) |}.

Definition getTrades (marketId : string) (s : t) : list Trade.t :=
  default [] (trades s !! marketId).

(** [clear(marketId?)]: an absent or empty identifier clears everything. *)
Definition clear (marketId : option string) (s : t) : t :=
  match marketId with
  | Some (String a rest as id) =>
      {| orderbooks := delete id (orderbooks s);
         trades := delete id (trades s) |}
  | _ => empty
  end.

End StreamStore.

Module StreamingService.

(** The part of a stream response the callback reads:
    [response.orderbook?] with its levels and sequence. *)
Record OrderbookResponse := mkResponse {
  orderbook : option OrderbookData.t
}.

Definition copyLevel (level : PriceLevel.t) : PriceLevel.t :=
  {| PriceLevel.price := PriceLevel.price level;
     PriceLevel.quantity := PriceLevel.quantity level;
     PriceLevel.timestamp := PriceLevel.timestamp level |}.

(** The [OrderbookData] the callback of [streamOrderbook] builds. *)
Definition orderbookOfResponse (response : OrderbookResponse) : OrderbookData.t :=
  {| OrderbookData.buys :=
       match orderbook response with
       | Some ob => List.map copyLevel (OrderbookData.buys ob)
       | None => []
       end;
     OrderbookData.sells :=
       match orderbook response with
       | Some ob => List.map copyLevel (OrderbookData.sells ob)
       | None => []
       end;
     OrderbookData.sequence :=
       match orderbook response with
       | Some ob =>
           if Z.eqb (OrderbookData.sequence ob) 0 then 0
           else OrderbookData.sequence ob
       | None => 0
       end |}.

(** The callback of [streamOrderbook]: build the snapshot and store it. *)
Definition onOrderbookResponse (marketId : string)
    (response : OrderbookResponse) (store : StreamStore.t) : StreamStore.t :=
  StreamStore.setOrderbook marketId (orderbookOfResponse response) store.

Definition getCachedOrderbook (marketId : string) (store : StreamStore.t)
  : option OrderbookData.t :=
  StreamStore.getOrderbook marketId store.

End StreamingService.

(** ** The cache key of the comparison route (routes/compare.routes.ts) *)

Module CompareRoute.

(** [val.split(',')]: the pieces between the separators; the empty string
    gives one empty piece. *)
Fixpoint split (sep : ascii) (s : string) : list string :=
  match s with
  | EmptyString => [EmptyString]
  | String a rest =>
      if Ascii.eqb a sep then EmptyString :: split sep rest
      else
        match split sep rest with
        | piece :: pieces => String a piece :: pieces
        | [] => [String a EmptyString]
        end
  end.

(** [id.trim()], on the ASCII white space characters. *)
Fixpoint trimStart (s : string) : string :=
  match s with
  | String a rest => if Ascii.is_space a then trimStart rest else s
  | EmptyString => EmptyString
  end.
Definition trim (s : string) : string :=
  String.rev (trimStart (String.rev (trimStart s))).

(** [compareSchema]: a non-empty string holding 2 to 5 identifiers. *)
Definition compareSchema (val : string) : bool :=
  Nat.leb 1 (String.length val) &&
  (let ids := split "," val in
   Nat.leb 2 (length ids) && Nat.leb (length ids) 5).

(** [marketIds.sort()] with the default comparator, the order of strings. *)
Definition sort (ids : list string) : list string :=
  merge_sort String.le ids.

Definition marketIdsOf (marketsParam : string) : list string :=
  List.map trim (split "," marketsParam).

Definition cacheKeyOfIds (marketIds : list string) : string :=
  "compare:" +:+ String.concat "," (sort marketIds).

Definition cacheKey (marketsParam : string) : string :=
  cacheKeyOfIds (marketIdsOf marketsParam).

End CompareRoute.

(** ** Sequences of cache operations *)

Module CacheTrace.
Section WithData.
Context {T : Type}.
Variable cacheTTL : Q.

(** One call on the cache, with the clock reading it sees. *)
Inductive op :=
| OpSet (key : string) (data : T) (ttlSeconds : option Q) (now : Z)
| OpGet (key : string) (now : Z)
| OpDelete (key : string)
| OpClear
| OpCleanup (now : Z).

Definition step (c : Cache.t T) (o : op) : Cache.t T :=
  match o with
  | OpSet key data ttlSeconds now => Cache.set cacheTTL key data ttlSeconds now c
  | OpGet key now => (Cache.get key now c).2
  | OpDelete key => (Cache.delete key c).2
  | OpClear => Cache.clear c
  | OpCleanup now => Cache.cleanup now c
  end.

Definition run (ops : list op) (c : Cache.t T) : Cache.t T :=
  fold_left step ops c.

Definition isGet (o : op) : bool :=
  match o with OpGet _ _ => true | _ => false end.

Definition isSet (o : op) : bool :=
  match o with OpSet _ _ _ _ => true | _ => false end.

End WithData.
Arguments op : clear implicits.
End CacheTrace.

(** ** The best market of a comparison (routes/compare.routes.ts) *)

Module HealthSummary.
Record t := mk {
  score : Q;
  status : HealthStatus.t;
  components : HealthComponents.t
}.
End HealthSummary.

Module Comparison.

(** An entry of [comparisons]: the summary of a market, or the market
    identifier with an error message. *)
Inductive t :=
| Compared (marketId ticker : string) (health : HealthSummary.t)
    (liquidityScore liquiditySpread liquidityDepth : Q)
    (volatilityScore : Q) (volatilityLevel : VolatilityLevel.t)
    (volumeScore volume24h : Q)
| Failed (marketId error : string).

Definition marketId (c : t) : string :=
  match c with
  | Compared marketId _ _ _ _ _ _ _ _ _ => marketId
  | Failed marketId _ => marketId
  end.

(** [!c.error]: an entry without error, or whose error message is empty. *)
Definition noError (c : t) : bool :=
  match c with
  | Compared _ _ _ _ _ _ _ _ _ _ => true
  | Failed _ error => match error with EmptyString => true | _ => false end
  end.

(** [c.health?.score || 0]. *)
Definition healthScore (c : t) : Q :=
  match c with
  | Compared _ _ health _ _ _ _ _ _ _ =>
      if Qeq_bool (HealthSummary.score health) 0 then 0%Q
      else HealthSummary.score health
  | Failed _ _ => 0%Q
  end.

End Comparison.

Module CompareBest.
Section WithRuntime.
Context {rt : Runtime}.

(** The entry built for a market whose data was fetched. *)
Definition compared (now : Z) (marketId ticker : string)
    (orderbook : OrderbookData.t) (trades : list Trade.t) : Comparison.t :=
  let liquidity := LiquidityService.calculateLiquidity now orderbook in
  let volatility := VolatilityService.calculateVolatility now trades None in
  let volume := VolumeService.calculateVolume now trades None in
  let health := HealthService.calculateHealth now liquidity volatility volume in
  Comparison.Compared marketId ticker
    {| HealthSummary.score := HealthScore.score health;
       HealthSummary.status := HealthScore.status health;
       HealthSummary.components := HealthScore.components health |}
    (LiquidityMetrics.score liquidity)
    (LiquidityMetrics.spreadPercent liquidity)
    (LiquidityMetrics.totalDepth liquidity)
    (VolatilityMetrics.score volatility)
    (VolatilityMetrics.level volatility)
    (VolumeMetrics.score volume)
    (VolumeMetrics.volume24h volume).

End WithRuntime.

Definition validComparisons (comparisons : list Comparison.t) : list Comparison.t :=
  List.filter Comparison.noError comparisons.

(** The callback of the [reduce]: keep [best] unless [current] scores
    strictly higher. *)
Definition better (best current : Comparison.t) : Comparison.t :=
  if Qlt_bool (Comparison.healthScore best) (Comparison.healthScore current)
  then current else best.

(** [validComparisons.reduce(...)], or null when there is no valid entry. *)
Definition bestMarket (comparisons : list Comparison.t) : option Comparison.t :=
  match validComparisons comparisons with
  | [] => None
  | first :: rest => Some (fold_left better rest first)
  end.

(** [bestMarket?.marketId || null]. *)
Definition bestMarketId (comparisons : list Comparison.t) : option string :=
  match bestMarket comparisons with
  | Some best =>
      match Comparison.marketId best with
      | EmptyString => None
      | id => Some id
      end
  | None => None
  end.

End CompareBest.

(** ** Validators (utils/validators.ts) *)

Module Validators.

Definition inRange (lo hi a : ascii) : bool :=
  (nat_of_ascii lo <=? nat_of_ascii a)%nat && (nat_of_ascii a <=? nat_of_ascii hi)%nat.

(** [[a-fA-F0-9]]. *)
Definition isHexDigit (a : ascii) : bool :=
  inRange "a" "f" a || inRange "A" "F" a || inRange "0" "9" a.

(** [[A-Z0-9]] under the [i] flag. *)
Definition isAlnum (a : ascii) : bool :=
  inRange "A" "Z" a || inRange "a" "z" a || inRange "0" "9" a.

Fixpoint allChars (f : ascii -> bool) (s : string) : bool :=
  match s with
  | EmptyString => true
  | String a rest => f a && allChars f rest
  end.

(** [/^0x[a-fA-F0-9]{64}$/]. *)
Definition hexPattern (val : string) : bool :=
  match val with
  | String "0" (String "x" digits) =>
      Nat.eqb (String.length digits) 64 && allChars isHexDigit digits
  | _ => false
  end.

(** The longest prefix of characters of the class, and what follows it. *)
Fixpoint span (f : ascii -> bool) (s : string) : string * string :=
  match s with
  | String a rest =>
      if f a then let '(prefix, suffix) := span f rest in (String a prefix, suffix)
      else (EmptyString, s)
  | EmptyString => (EmptyString, EmptyString)
  end.

(** [/^[A-Z0-9]+-[A-Z0-9]+$/i]: the class excludes the hyphen, so the base
    is the longest alphanumeric prefix. *)
Definition tickerPattern (val : string) : bool :=
  let '(base, rest) := span isAlnum val in
  match base, rest with
  | String _ _, String "-" (String _ _ as quote) => allChars isAlnum quote
  | _, _ => false
  end.

Definition marketIdSchema (val : string) : bool :=
  hexPattern val || tickerPattern val.

(** [periodSchema]. *)
Definition periodSchema (val : string) : bool :=
  String.eqb val "24h" || String.eqb val "7d" || String.eqb val "30d".

(** [marketListSchema]: the list of identifiers, or the message of the
    issue that rejects the input. *)
Definition marketListSchema (val : string) : string + list string :=
  let markets :=
    List.filter (fun m => Nat.ltb 0 (String.length m))
      (List.map CompareRoute.trim (CompareRoute.split "," val)) in
  if Nat.eqb (length markets) 0 then inl "At least one market ID required"
  else if Nat.ltb 10 (length markets) then
    inl ("Too many markets. Maximum 10 allowed, got " +:+ pretty (length markets))
  else
    match List.find (fun market => negb (marketIdSchema market)) markets with
    | Some market => inl ("Invalid market ID: " +:+ market)
    | None => inr markets
    end.

End Validators.

(** ** formatUptime (routes/status.routes.ts) *)

Module StatusRoute.
Local Open Scope Q_scope.

(** The integer part of a number, towards zero. *)
Definition truncate (x : Q) : Z :=
  if Qle_bool 0 x then Qfloor x else Qceiling x.

(** [a % b] on numbers: the remainder has the sign of the dividend. *)
Definition remainder (a b : Q) : Q := a - b * inject_Z (truncate (a / b)).

(** The four constants [days], [hours], [minutes], [secs]. *)
Definition uptimeParts (seconds : Q) : Z * Z * Z * Z :=
  let days := Qfloor (seconds / 86400) in
  let hours := Qfloor (remainder seconds 86400 / 3600) in
  let minutes := Qfloor (remainder seconds 3600 / 60) in
  let secs := Qfloor (remainder seconds 60) in
  (days, hours, minutes, secs).

(** Integers are printed in decimal (JavaScript does so below 10^21). *)
Definition formatUptime (seconds : Q) : string :=
  let '(days, hours, minutes, secs) := uptimeParts seconds in
  let parts :=
    (if Z.ltb 0 days then [pretty days +:+ "d"] else []) ++
    (if Z.ltb 0 hours then [pretty hours +:+ "h"] else []) ++
    (if Z.ltb 0 minutes then [pretty minutes +:+ "m"] else []) ++
    [pretty secs +:+ "s"] in
  String.concat " " parts.

End StatusRoute.

(** ** Orders on the tiers *)

Module Tier.

Definition healthRank (s : HealthStatus.t) : nat :=
  match s with
  | HealthStatus.CRITICAL => 0
  | HealthStatus.WARNING => 1
  | HealthStatus.HEALTHY => 2
  end.

Definition riskRank (l : RiskLevel.t) : nat :=
  match l with
  | RiskLevel.LOW => 0
  | RiskLevel.MEDIUM => 1
  | RiskLevel.HIGH => 2
  | RiskLevel.EXTREME => 3
  end.

End Tier.

(** ** Concrete inputs *)

Module Scenario.

(** Best bid 19.95 / 100 against best ask 20.05 / 100. *)
Definition tightBook : OrderbookData.t :=
  {| OrderbookData.buys := [PriceLevel.mk "19.95" "100" 0];
     OrderbookData.sells := [PriceLevel.mk "20.05" "100" 0];
     OrderbookData.sequence := 1 |}.

(** No bids, one ask of 9 units at 20. *)
Definition askOnlyBook : OrderbookData.t :=
  {| OrderbookData.buys := [];
     OrderbookData.sells := [PriceLevel.mk "20" "9" 0];
     OrderbookData.sequence := 1 |}.

(** Two bids, no asks. *)
Definition bidOnlyBook : OrderbookData.t :=
  {| OrderbookData.buys := [PriceLevel.mk "19.95" "100" 0; PriceLevel.mk "19.90" "50" 0];
     OrderbookData.sells := [];
     OrderbookData.sequence := 1 |}.

(** The tight book with both prices divided by ten: the same spread
    percentage in exact arithmetic. *)
Definition tenthBook : OrderbookData.t :=
  {| OrderbookData.buys := [PriceLevel.mk "1.995" "100" 0];
     OrderbookData.sells := [PriceLevel.mk "2.005" "100" 0];
     OrderbookData.sequence := 1 |}.

(** A best bid that is negligible against the best ask. *)
Definition lopsidedBook : OrderbookData.t :=
  {| OrderbookData.buys := [PriceLevel.mk "0.00000000000000001" "1" 0];
     OrderbookData.sells := [PriceLevel.mk "1" "1" 0];
     OrderbookData.sequence := 1 |}.

Definition emptyBook : OrderbookData.t :=
  {| OrderbookData.buys := []; OrderbookData.sells := [];
     OrderbookData.sequence := 0 |}.

(** A trade with the given execution price, quantity and time. *)
Definition trade (price quantity : string) (executedAt : Z) : Trade.t :=
  {| Trade.orderHash := "";
     Trade.subaccountId := "";
     Trade.marketId := "";
     Trade.tradeExecutionType := "";
     Trade.positionDelta :=
       {| PositionDelta.tradeDirection := "buy";
          PositionDelta.executionPrice := price;
          PositionDelta.executionQuantity := quantity;
          PositionDelta.executionMargin := "0" |};
     Trade.payout := "0";
     Trade.fee := "0";
     Trade.executedAt := executedAt;
     Trade.feeRecipient := "";
     Trade.tradeId := "";
     Trade.executionSide := "" |}.

(** The clock reading used in the scenarios, and five trades at price 20
    in the ten minutes before it. *)
Definition clock : Z := 1707500000000.

Definition steadyTrades : list Trade.t :=
  [trade "20" "1" (clock - 60000); trade "20" "1" (clock - 120000);
   trade "20" "1" (clock - 180000); trade "20" "1" (clock - 240000);
   trade "20" "1" (clock - 600000)].

(** One trade fifty minutes old and one ninety minutes old. *)
Definition oldAndNewTrades : list Trade.t :=
  [trade "20" "1" (clock - 3000000); trade "30" "1" (clock - 5400000)].

(** Two snapshots of one market: sequence 5, then a late one of sequence 3. *)
Definition newerSnapshot : OrderbookData.t :=
  {| OrderbookData.buys := [PriceLevel.mk "19.95" "100" 0];
     OrderbookData.sells := [PriceLevel.mk "20.05" "100" 0];
     OrderbookData.sequence := 5 |}.

Definition staleSnapshot : OrderbookData.t :=
  {| OrderbookData.buys := [PriceLevel.mk "19.00" "10" 0];
     OrderbookData.sells := [PriceLevel.mk "21.00" "10" 0];
     OrderbookData.sequence := 3 |}.

Definition liquidityOfTightBook : LiquidityMetrics.t :=
  LiquidityService.calculateLiquidity (rt := decimalRuntime) clock tightBook.

Definition volatilityOfSteadyTrades : VolatilityMetrics.t :=
  VolatilityService.calculateVolatility (rt := decimalRuntime) clock steadyTrades None.

Definition volumeOfSteadyTrades : VolumeMetrics.t :=
  VolumeService.calculateVolume (rt := decimalRuntime) clock steadyTrades None.

End Scenario.

(** ** Quantities named by the specification *)

Module Spec.
Section WithRuntime.
Context {rt : Runtime}.
Local Open Scope Q_scope.

(** The weighted sum of the three depth terms of the liquidity score,
    without the spread term. *)
Definition depthTerms (m : LiquidityMetrics.t) : Q :=
  Math_min 100 (Math_log10 (LiquidityMetrics.totalDepth m + 1) * 20) * 0.3 +
  Math_min 100 (Math_log10 (LiquidityMetrics.depth1Percent m + 1) * 25) * 0.15 +
  Math_min 100 (Math_log10 (LiquidityMetrics.depth5Percent m + 1) * 20) * 0.15.

(** A liquidity score made of the depth terms alone. *)
Definition depthOnlyScore (m : LiquidityMetrics.t) : Q :=
  Math_round (Math_max 0 (Math_min 100 (depthTerms m))).

End WithRuntime.

(** The trade [t] with its execution time moved by [delta] milliseconds. *)
Definition shiftTrade (delta : Z) (t : Trade.t) : Trade.t :=
  {| Trade.orderHash := Trade.orderHash t;
     Trade.subaccountId := Trade.subaccountId t;
     Trade.marketId := Trade.marketId t;
     Trade.tradeExecutionType := Trade.tradeExecutionType t;
     Trade.positionDelta := Trade.positionDelta t;
     Trade.payout := Trade.payout t;
     Trade.fee := Trade.fee t;
     Trade.executedAt := Trade.executedAt t + delta;
     Trade.feeRecipient := Trade.feeRecipient t;
     Trade.tradeId := Trade.tradeId t;
     Trade.executionSide := Trade.executionSide t |}.

(** An identifier that can be written in a comma-separated list. *)
Fixpoint commaFree (s : string) : bool :=
  match s with
  | EmptyString => true
  | String a rest => negb (Ascii.eqb a ",") && commaFree rest
  end.

End Spec.

(** ** The liquidity pipeline in binary64 arithmetic

    [LiquidityService.calculateLiquidity] without the score (which needs
    [Math.log10]), the two spread ladders and the mean of the volatility
    service, on IEEE 754 binary64 numbers with the operations of the
    source, to evaluate concrete inputs as JavaScript does. *)

Module Binary64.

Definition ofZ (z : Z) : float :=
  if (z <? 0)%Z then PrimFloat.opp (PrimFloat.of_uint63 (Uint63.of_Z (- z)))
  else PrimFloat.of_uint63 (Uint63.of_Z z).

(** The binary64 number nearest to [q]: numerator and denominator are
    exact in binary64 when the numerator is below 2^53 and the denominator
    divides 10^18, and the binary64 division is correctly rounded. *)
Definition ofQ (q : Q) : float :=
  PrimFloat.div (ofZ (Qnum q)) (ofZ (Z.pos (Qden q))).

Definition startsWithDigit (s : string) : bool :=
  match s with
  | String a _ =>
      match DecimalRuntime.digit_of a with Some _ => true | None => false end
  | EmptyString => false
  end.

(** Whether [s] starts with a decimal literal [[+-]digits[.digits]] or
    [[+-].digits]. *)
Definition isDecimal (s : string) : bool :=
  let s1 :=
    match s with
    | String "-" rest => rest
    | String "+" rest => rest
    | _ => s
    end in
  startsWithDigit s1 ||
  match s1 with
  | String "." rest => startsWithDigit rest
  | _ => false
  end.

(** [parseFloat]: the decimal prefix of the string, rounded to the nearest
    binary64 number, and [NaN] when there is none.  Exact for literals of
    at most 15 significant digits and 18 decimals; leading white space,
    exponents and [Infinity] are not read. *)
Definition parseFloat (s : string) : float :=
  if isDecimal s then ofQ (DecimalRuntime.parse_decimal s) else PrimFloat.nan.

Local Open Scope float_scope.
#[local] Set Warnings "-inexact-float".

Module LiquidityMetrics.
Record t := mk {
  bidDepth : float;
  askDepth : float;
  totalDepth : float;
  depth1Percent : float;
  depth5Percent : float;
  spread : float;
  spreadPercent : float;
  midPrice : float
}.
End LiquidityMetrics.

Module LiquidityService.

Definition calculateMidPrice (orderbook : OrderbookData.t) : float :=
  let bestBid :=
    match OrderbookData.buys orderbook with
    | l :: _ => parseFloat (PriceLevel.price l)
    | [] => 0
    end in
  let bestAsk :=
    match OrderbookData.sells orderbook with
    | l :: _ => parseFloat (PriceLevel.price l)
    | [] => 0
    end in
  if (bestBid =? 0) || (bestAsk =? 0) then 0
  else (bestBid + bestAsk) / 2.

Definition calculateSpread (orderbook : OrderbookData.t) : float :=
  let bestBid :=
    match OrderbookData.buys orderbook with
    | l :: _ => parseFloat (PriceLevel.price l)
    | [] => 0
    end in
  let bestAsk :=
    match OrderbookData.sells orderbook with
    | l :: _ => parseFloat (PriceLevel.price l)
    | [] => 0
    end in
  abs (bestAsk - bestBid).

Definition calculateDepth (levels : list PriceLevel.t) : float :=
  fold_left (fun sum level => sum + parseFloat (PriceLevel.quantity level))
    levels 0.

Definition calculateDepthAtPercent
    (orderbook : OrderbookData.t) (midPrice percent : float) : float :=
  let upperBound := midPrice * (1 + percent) in
  let lowerBound := midPrice * (1 - percent) in
  let bidDepth :=
    fold_left (fun sum level => sum + parseFloat (PriceLevel.quantity level))
      (List.filter
         (fun level => lowerBound <=? parseFloat (PriceLevel.price level))
         (OrderbookData.buys orderbook)) 0 in
  let askDepth :=
    fold_left (fun sum level => sum + parseFloat (PriceLevel.quantity level))
      (List.filter
         (fun level => parseFloat (PriceLevel.price level) <=? upperBound)
         (OrderbookData.sells orderbook)) 0 in
  bidDepth + askDepth.

(** The fields of the result other than [score] and [timestamp]. *)
Definition calculateLiquidity (orderbook : OrderbookData.t)
  : LiquidityMetrics.t :=
  let midPrice := calculateMidPrice orderbook in
  let spread := calculateSpread orderbook in
  let spreadPercent :=
    if 0 <? midPrice then (spread / midPrice) * 100 else 0 in
  let bidDepth := calculateDepth (OrderbookData.buys orderbook) in
  let askDepth := calculateDepth (OrderbookData.sells orderbook) in
  let totalDepth := bidDepth + askDepth in
  let depth1Percent := calculateDepthAtPercent orderbook midPrice 0.01 in
  let depth5Percent := calculateDepthAtPercent orderbook midPrice 0.05 in
  {| LiquidityMetrics.bidDepth := bidDepth;
     LiquidityMetrics.askDepth := askDepth;
     LiquidityMetrics.totalDepth := totalDepth;
     LiquidityMetrics.depth1Percent := depth1Percent;
     LiquidityMetrics.depth5Percent := depth5Percent;
     LiquidityMetrics.spread := spread;
     LiquidityMetrics.spreadPercent := spreadPercent;
     LiquidityMetrics.midPrice := midPrice |}.

End LiquidityService.

Module HealthService.

Definition calculateSpreadScore (spreadPercent : float) : float :=
  if spreadPercent <? 0.1 then 100
  else if spreadPercent <? 0.5 then 80
  else if spreadPercent <? 1.0 then 60
  else if spreadPercent <? 2.0 then 40
  else if spreadPercent <? 5.0 then 20
  else 10.

End HealthService.

Module RiskService.

Definition calculateSpreadRisk (liquidity : LiquidityMetrics.t) : float :=
  let spreadPercent := LiquidityMetrics.spreadPercent liquidity in
  if spreadPercent <? 0.1 then 10
  else if spreadPercent <? 0.5 then 30
  else if spreadPercent <? 1.0 then 50
  else if spreadPercent <? 2.0 then 70
  else 90.

End RiskService.

Module VolatilityService.

Definition calculateMean (values : list float) : float :=
  if Nat.eqb (length values) 0 then 0
  else
    let sum := fold_left (fun acc val => acc + val) values 0 in
    sum / ofZ (Z.of_nat (length values)).

End VolatilityService.

End Binary64.

(** * Properties *)

(** ** Numbers *)

Section Numbers.
Local Open Scope Q_scope.

Lemma Qlt_bool_true (a b : Q) : Qlt_bool a b = true <-> a < b.
Proof.
  unfold Qlt_bool. rewrite negb_true_iff, <- not_true_iff_false, Qle_bool_iff.
  split; [apply Qnot_le_lt | apply Qlt_not_le].
Qed.

Lemma Qlt_bool_false (a b : Q) : Qlt_bool a b = false <-> b <= a.
Proof.
  unfold Qlt_bool. rewrite negb_false_iff. apply Qle_bool_iff.
Qed.

Global Instance Qlt_bool_comp : Proper (Qeq ==> Qeq ==> eq) Qlt_bool.
Proof. intros a a' Ha b b' Hb. unfold Qlt_bool. now rewrite Ha, Hb. Qed.


Lemma Math_round_le (x y : Q) : x <= y -> Math_round x <= Math_round y.
Proof.
  intros L. unfold Math_round. rewrite <- Zle_Qle.
  apply Qfloor_resp_le. lra.
Qed.

Lemma Math_max_le (a x y : Q) : x <= y -> Math_max a x <= Math_max a y.
Proof. apply Q.max_le_compat_l. Qed.

Lemma Math_min_le (a x y : Q) : x <= y -> Math_min a x <= Math_min a y.
Proof. apply Q.min_le_compat_l. Qed.



End Numbers.

(** ** Lists *)

Section Lists.
Context {A : Type}.

Lemma filter_all (f : A -> bool) (l : list A) :
  (forall x, In x l -> f x = true) -> List.filter f l = l.
Proof.
  induction l as [|a l IH]; intros Hall; simpl; [reflexivity|].
  rewrite (Hall a) by now left.
  f_equal. apply IH. intros x Hx. apply Hall. now right.
Qed.

Lemma filter_none (f : A -> bool) (l : list A) :
  (forall x, In x l -> f x = false) -> List.filter f l = [].
Proof.
  induction l as [|a l IH]; intros Hall; simpl; [reflexivity|].
  rewrite (Hall a) by now left.
  apply IH. intros x Hx. apply Hall. now right.
Qed.

End Lists.

(** ** LiquidityService on a book with an empty side *)

Module LiquidityProperties.
Section WithRuntime.
Context {rt : Runtime}.
Import LiquidityService.
Local Open Scope Q_scope.

Lemma calculateMidPrice_empty_side (ob : OrderbookData.t) :
  OrderbookData.buys ob = [] \/ OrderbookData.sells ob = [] ->
  calculateMidPrice ob = 0.
Proof.
  intros [E | E]; unfold calculateMidPrice; rewrite E.
  - reflexivity.
  - now rewrite orb_true_r.
Qed.


(** With one side empty the spread field is the best price of the other
    side (the missing best price counts as 0). *)
Lemma calculateSpread_bid_only (ob : OrderbookData.t) (l : PriceLevel.t) ls :
  OrderbookData.buys ob = l :: ls -> OrderbookData.sells ob = [] ->
  calculateSpread ob == Qabs (parseFloat (PriceLevel.price l)).
Proof.
  intros Eb Es. unfold calculateSpread, Math_abs. rewrite Eb, Es.
  rewrite <- (Qabs_opp (parseFloat (PriceLevel.price l))).
  apply Qabs_wd. ring.
Qed.

Lemma calculateSpread_ask_only (ob : OrderbookData.t) (l : PriceLevel.t) ls :
  OrderbookData.buys ob = [] -> OrderbookData.sells ob = l :: ls ->
  calculateSpread ob == Qabs (parseFloat (PriceLevel.price l)).
Proof.
  intros Eb Es. unfold calculateSpread, Math_abs. rewrite Eb, Es.
  apply Qabs_wd. ring.
Qed.



(** When the mid price is 0 both bounds of the band are 0, whatever the
    percentage: every bid priced at 0 or more is kept and every ask
    priced above 0 is dropped. *)
Lemma calculateDepthAtPercent_zero_mid
    (ob : OrderbookData.t) (mid percent : Q) :
  mid == 0 ->
  (forall l, In l (OrderbookData.buys ob) ->
             0 < parseFloat (PriceLevel.price l)) ->
  (forall l, In l (OrderbookData.sells ob) ->
             0 < parseFloat (PriceLevel.price l)) ->
  List.filter
    (fun level => Qle_bool (mid * (1 - percent)) (parseFloat (PriceLevel.price level)))
    (OrderbookData.buys ob) = OrderbookData.buys ob /\
  List.filter
    (fun level => Qle_bool (parseFloat (PriceLevel.price level)) (mid * (1 + percent)))
    (OrderbookData.sells ob) = [] /\
  calculateDepthAtPercent ob mid percent == calculateDepth (OrderbookData.buys ob).
Proof.
  intros Hmid Hb Ha.
  assert (Fb : List.filter
    (fun level => Qle_bool (mid * (1 - percent)) (parseFloat (PriceLevel.price level)))
    (OrderbookData.buys ob) = OrderbookData.buys ob).
  { apply filter_all. intros l Hl. apply Qle_bool_iff.
    rewrite Hmid. specialize (Hb l Hl). lra. }
  assert (Fa : List.filter
    (fun level => Qle_bool (parseFloat (PriceLevel.price level)) (mid * (1 + percent)))
    (OrderbookData.sells ob) = []).
  { apply filter_none. intros l Hl. apply not_true_iff_false.
    rewrite Qle_bool_iff, Hmid. specialize (Ha l Hl). lra. }
  repeat split; [exact Fb | exact Fa |].
  unfold calculateDepthAtPercent. rewrite Fb, Fa. simpl.
  unfold calculateDepth. ring.
Qed.

(** C10.  Whenever the mid price is 0 and the prices on the book are
    positive, every bid level passes the band filter and no ask level
    does, for the 1% and the 5% band alike; so [depth1Percent] and
    [depth5Percent] both equal the sum of all bid quantities, which is
    [bidDepth]; in particular both are 0 when there are no bids. *)
Theorem depth_within_percent_zero_mid (now : Z) (ob : OrderbookData.t) :
  let m := calculateLiquidity now ob in
  LiquidityMetrics.midPrice m == 0 ->
  (forall l, In l (OrderbookData.buys ob ++ OrderbookData.sells ob) ->
             0 < parseFloat (PriceLevel.price l)) ->
  (forall percent,
     List.filter
       (fun level =>
          Qle_bool (LiquidityMetrics.midPrice m * (1 - percent))
            (parseFloat (PriceLevel.price level)))
       (OrderbookData.buys ob) = OrderbookData.buys ob /\
     List.filter
       (fun level =>
          Qle_bool (parseFloat (PriceLevel.price level))
            (LiquidityMetrics.midPrice m * (1 + percent)))
       (OrderbookData.sells ob) = []) /\
  LiquidityMetrics.depth1Percent m == calculateDepth (OrderbookData.buys ob) /\
  LiquidityMetrics.depth5Percent m == calculateDepth (OrderbookData.buys ob) /\
  LiquidityMetrics.depth1Percent m == LiquidityMetrics.bidDepth m /\
  LiquidityMetrics.depth5Percent m == LiquidityMetrics.bidDepth m /\
  (OrderbookData.buys ob = [] ->
   LiquidityMetrics.depth1Percent m == 0 /\
   LiquidityMetrics.depth5Percent m == 0).
Proof.
  intros m Hmid Hpos.
  assert (Hb : forall l, In l (OrderbookData.buys ob) ->
                         0 < parseFloat (PriceLevel.price l)).
  { intros l Hl. apply Hpos, in_or_app. now left. }
  assert (Ha : forall l, In l (OrderbookData.sells ob) ->
                         0 < parseFloat (PriceLevel.price l)).
  { intros l Hl. apply Hpos, in_or_app. now right. }
  pose proof (fun percent =>
    calculateDepthAtPercent_zero_mid ob _ percent Hmid Hb Ha) as D.
  assert (D1 : LiquidityMetrics.depth1Percent m
               == calculateDepth (OrderbookData.buys ob)) by apply (D 0.01).
  assert (D5 : LiquidityMetrics.depth5Percent m
               == calculateDepth (OrderbookData.buys ob)) by apply (D 0.05).
  split; [intros percent; split; apply (D percent)|].
  split; [exact D1|]. split; [exact D5|].
  split; [exact D1|]. split; [exact D5|].
  intros E. rewrite D1, D5, E. split; reflexivity.
Qed.

End WithRuntime.

Import LiquidityService.
Local Open Scope Q_scope.



(** On the completely empty book the spread is 0 and the score is still
    40: the spread term alone. *)
Lemma empty_book_score :
  let m := calculateLiquidity (rt := decimalRuntime) 0 Scenario.emptyBook in
  LiquidityMetrics.spread m == 0 /\
  LiquidityMetrics.score m == 40 /\
  Spec.depthOnlyScore (rt := decimalRuntime) m == 0.
Proof. repeat split; vm_compute; reflexivity. Qed.

Lemma depth_within_percent_zero_mid_witness :
  let m := calculateLiquidity (rt := decimalRuntime) 0 Scenario.bidOnlyBook in
  LiquidityMetrics.midPrice m == 0 /\
  (forall l,
     In l (OrderbookData.buys Scenario.bidOnlyBook ++
           OrderbookData.sells Scenario.bidOnlyBook) ->
     0 < parseFloat (Runtime := decimalRuntime) (PriceLevel.price l)) /\
  LiquidityMetrics.depth1Percent m == LiquidityMetrics.bidDepth m /\
  LiquidityMetrics.depth5Percent m == LiquidityMetrics.bidDepth m /\
  LiquidityMetrics.bidDepth m == 150.
Proof.
  intros m.
  assert (Hmid : LiquidityMetrics.midPrice m == 0) by (vm_compute; reflexivity).
  assert (Hpos : forall l,
            In l (OrderbookData.buys Scenario.bidOnlyBook ++
                  OrderbookData.sells Scenario.bidOnlyBook) ->
            0 < parseFloat (Runtime := decimalRuntime) (PriceLevel.price l)).
  { intros l [<- | [<- | []]]; vm_compute; reflexivity. }
  destruct (depth_within_percent_zero_mid (rt := decimalRuntime) 0
              Scenario.bidOnlyBook Hmid Hpos) as (_ & _ & _ & D1 & D5 & _).
  split; [exact Hmid|]. split; [exact Hpos|].
  split; [exact D1|]. split; [exact D5|].
  vm_compute; reflexivity.
Defined.

(** In exact decimal arithmetic the spread percentage of the book 19.95 /
    20.05 is the threshold 0.5 itself, which the ladders do not count as
    below 0.5.  What the code computes for that book, in binary64, is in
    [Binary64Properties]. *)
Lemma tight_book_exact_arithmetic :
  let m := calculateLiquidity (rt := decimalRuntime) 0 Scenario.tightBook in
  LiquidityMetrics.midPrice m == 20 /\
  LiquidityMetrics.spread m == 0.1 /\
  LiquidityMetrics.spreadPercent m == 0.5 /\
  HealthService.calculateSpreadScore (LiquidityMetrics.spreadPercent m) == 60 /\
  RiskService.calculateSpreadRisk m == 50.
Proof. repeat split; vm_compute; reflexivity. Qed.

End LiquidityProperties.

(** ** HealthService and RiskService *)

Module ScoreProperties.
Local Open Scope Q_scope.

(** The weighted sum is monotone, and so are the clamp and the rounding. *)
Ltac overall_score_le :=
  unfold HealthService.calculateOverallScore;
  apply Math_round_le, Math_max_le, Math_min_le; simpl; lra.

(** One component at a time, the other three held fixed. *)
Lemma calculateOverallScore_monotone_each (l v vol s x : Q) :
  (l <= x ->
   HealthService.calculateOverallScore (HealthComponents.mk l v vol s) <=
   HealthService.calculateOverallScore (HealthComponents.mk x v vol s)) /\
  (v <= x ->
   HealthService.calculateOverallScore (HealthComponents.mk l v vol s) <=
   HealthService.calculateOverallScore (HealthComponents.mk l x vol s)) /\
  (vol <= x ->
   HealthService.calculateOverallScore (HealthComponents.mk l v vol s) <=
   HealthService.calculateOverallScore (HealthComponents.mk l v x s)) /\
  (s <= x ->
   HealthService.calculateOverallScore (HealthComponents.mk l v vol s) <=
   HealthService.calculateOverallScore (HealthComponents.mk l v vol x)).
Proof. repeat split; intros H; overall_score_le. Qed.

(** C4.  The overall health score does not decrease when a component score
    increases: if every component of [c] is at most the same component of
    [c'] (in particular when they differ by an increase in one component
    only, the others being equal), then the score of [c], the weighted sum
    35/25/25/15 clamped to [0, 100] and rounded, is at most that of [c']. *)
Theorem calculateOverallScore_monotone (c c' : HealthComponents.t) :
  HealthComponents.liquidity c <= HealthComponents.liquidity c' ->
  HealthComponents.volatility c <= HealthComponents.volatility c' ->
  HealthComponents.volume c <= HealthComponents.volume c' ->
  HealthComponents.spread c <= HealthComponents.spread c' ->
  HealthService.calculateOverallScore c <= HealthService.calculateOverallScore c'.
Proof.
  intros Hl Hv Hvol Hs. unfold HealthService.calculateOverallScore.
  apply Math_round_le, Math_max_le, Math_min_le.
  apply Qplus_le_compat; [apply Qplus_le_compat; [apply Qplus_le_compat|]|];
    (apply Qmult_le_compat_r; [assumption | discriminate]).
Qed.

Lemma calculateOverallScore_monotone_witness :
  (65 <= 66) /\ (100 <= 100) /\ (32 <= 32) /\ (60 <= 60) /\
  HealthService.calculateOverallScore (HealthComponents.mk 65 100 32 60) <=
  HealthService.calculateOverallScore (HealthComponents.mk 66 100 32 60).
Proof.
  assert (H1 : 65 <= 66) by (vm_compute; discriminate).
  assert (H2 : 100 <= 100) by (vm_compute; discriminate).
  assert (H3 : 32 <= 32) by (vm_compute; discriminate).
  assert (H4 : 60 <= 60) by (vm_compute; discriminate).
  repeat (split; [assumption|]).
  exact (calculateOverallScore_monotone
           (HealthComponents.mk 65 100 32 60) (HealthComponents.mk 66 100 32 60)
           H1 H2 H3 H4).
Defined.

(** The metrics computed from the tight book and five trades at price 20:
    health 65 and risk 32. *)
Lemma steady_market_scores :
  HealthScore.score
    (HealthService.calculateHealth Scenario.clock Scenario.liquidityOfTightBook
       Scenario.volatilityOfSteadyTrades Scenario.volumeOfSteadyTrades) == 65 /\
  RiskMetrics.score
    (RiskService.calculateRisk Scenario.clock Scenario.liquidityOfTightBook
       Scenario.volatilityOfSteadyTrades Scenario.volumeOfSteadyTrades) == 32.
Proof. split; vm_compute; reflexivity. Qed.

(** C3.  There is a triple of liquidity, volatility and volume metrics on
    which the risk score of [calculateRisk] differs from 100 minus the
    health score of [calculateHealth]. *)
Theorem risk_is_not_complement_of_health :
  exists (liquidity : LiquidityMetrics.t) (volatility : VolatilityMetrics.t)
         (volume : VolumeMetrics.t),
  forall now : Z,
    ~ RiskMetrics.score (RiskService.calculateRisk now liquidity volatility volume)
      == 100 - HealthScore.score
                 (HealthService.calculateHealth now liquidity volatility volume).
Proof.
  exists Scenario.liquidityOfTightBook, Scenario.volatilityOfSteadyTrades,
         Scenario.volumeOfSteadyTrades.
  intros now H. vm_compute in H. discriminate.
Qed.

End ScoreProperties.

(** ** VolatilityService *)

Module VolatilityProperties.
Section WithRuntime.
Context {rt : Runtime}.
Import VolatilityService.
Local Open Scope Q_scope.

(** C6.  When no trade of the list was executed at or after the cut-off
    [now - windowMinutes * 60 * 1000] (in particular for the empty list),
    [calculateVolatility] returns the default metrics: score 0, level LOW,
    standard deviation, mean price and volatility percentage 0, and no
    price changes.  The function is total: it returns on every input. *)
Theorem calculateVolatility_no_trade_in_window
    (now : Z) (trades : list Trade.t) (windowMinutes : option Q) :
  (forall t, In t trades ->
     inject_Z (Trade.executedAt t) <
     inject_Z now - default 60 windowMinutes * 60 * 1000) ->
  let m := calculateVolatility now trades windowMinutes in
  m = getDefaultMetrics now /\
  VolatilityMetrics.score m = 0 /\
  VolatilityMetrics.level m = VolatilityLevel.LOW /\
  VolatilityMetrics.standardDeviation m = 0 /\
  VolatilityMetrics.meanPrice m = 0 /\
  VolatilityMetrics.volatilityPercent m = 0 /\
  VolatilityMetrics.priceChanges m = [].
Proof.
  intros Hout m.
  assert (E : m = getDefaultMetrics now).
  { subst m. unfold calculateVolatility.
    rewrite filter_none; [reflexivity|].
    intros t Ht. unfold inWindow, cutoffTime.
    apply not_true_iff_false. rewrite Qle_bool_iff.
    apply Qlt_not_le, Hout, Ht. }
  rewrite E. repeat split.
Qed.

Corollary calculateVolatility_no_trades (now : Z) (windowMinutes : option Q) :
  calculateVolatility now [] windowMinutes = getDefaultMetrics now.
Proof. reflexivity. Qed.

Lemma filter_inWindow_shift
    (now : Z) (w : Q) (delta : Z) (trades : list Trade.t) :
  (forall t, In t trades ->
     inWindow now w (Spec.shiftTrade delta t) = inWindow now w t) ->
  List.filter (inWindow now w) (List.map (Spec.shiftTrade delta) trades) =
  List.map (Spec.shiftTrade delta) (List.filter (inWindow now w) trades).
Proof.
  induction trades as [|t trades IH]; intros Hsame; [reflexivity|].
  simpl. rewrite (Hsame t) by now left.
  rewrite IH by (intros u Hu; apply Hsame; now right).
  now destruct (inWindow now w t).
Qed.

Lemma prices_shift (delta : Z) (trades : list Trade.t) :
  List.map
    (fun t => parseFloat (PositionDelta.executionPrice (Trade.positionDelta t)))
    (List.map (Spec.shiftTrade delta) trades) =
  List.map
    (fun t => parseFloat (PositionDelta.executionPrice (Trade.positionDelta t)))
    trades.
Proof. rewrite List.map_map. reflexivity. Qed.

(** C7 (as amended).  Moving the execution time of every trade by the same
    [delta] leaves the result of [calculateVolatility] unchanged, and so its
    standard deviation, mean price and score, provided the shift keeps each
    trade on its side of the cut-off: trades in the window stay in it and
    trades outside stay outside. *)
Theorem calculateVolatility_time_translation
    (now : Z) (trades : list Trade.t) (windowMinutes : option Q) (delta : Z) :
  (forall t, In t trades ->
     inWindow now (default 60 windowMinutes) (Spec.shiftTrade delta t) =
     inWindow now (default 60 windowMinutes) t) ->
  let m := calculateVolatility now trades windowMinutes in
  let m' :=
    calculateVolatility now (List.map (Spec.shiftTrade delta) trades) windowMinutes in
  VolatilityMetrics.standardDeviation m' = VolatilityMetrics.standardDeviation m /\
  VolatilityMetrics.meanPrice m' = VolatilityMetrics.meanPrice m /\
  VolatilityMetrics.score m' = VolatilityMetrics.score m /\
  m' = m.
Proof.
  intros Hsame m m'.
  assert (E : m' = m).
  { subst m m'. unfold calculateVolatility.
    rewrite (filter_inWindow_shift _ _ _ _ Hsame).
    rewrite prices_shift, List.length_map. reflexivity. }
  rewrite E. repeat split.
Qed.

End WithRuntime.

Import VolatilityService.
Local Open Scope Q_scope.

Lemma calculateVolatility_no_trade_in_window_witness :
  (forall t, In t Scenario.steadyTrades ->
     inject_Z (Trade.executedAt t) <
     inject_Z (Scenario.clock + 7200000) - default 60 (Some 30) * 60 * 1000) /\
  calculateVolatility (rt := decimalRuntime) (Scenario.clock + 7200000)
    Scenario.steadyTrades (Some 30)
  = getDefaultMetrics (Scenario.clock + 7200000).
Proof.
  assert (H : forall t, In t Scenario.steadyTrades ->
     inject_Z (Trade.executedAt t) <
     inject_Z (Scenario.clock + 7200000) - default 60 (Some 30) * 60 * 1000).
  { intros t [<- | [<- | [<- | [<- | [<- | []]]]]]; vm_compute; reflexivity. }
  split; [exact H|].
  apply (calculateVolatility_no_trade_in_window (rt := decimalRuntime)
           (Scenario.clock + 7200000) Scenario.steadyTrades (Some 30) H).
Defined.

Lemma calculateVolatility_time_translation_witness :
  (forall t, In t Scenario.steadyTrades ->
     inWindow Scenario.clock (default 60 None) (Spec.shiftTrade (-60000) t) =
     inWindow Scenario.clock (default 60 None) t) /\
  calculateVolatility (rt := decimalRuntime) Scenario.clock
    (List.map (Spec.shiftTrade (-60000)) Scenario.steadyTrades) None
  = calculateVolatility (rt := decimalRuntime) Scenario.clock
      Scenario.steadyTrades None.
Proof.
  assert (H : forall t, In t Scenario.steadyTrades ->
     inWindow Scenario.clock (default 60 None) (Spec.shiftTrade (-60000) t) =
     inWindow Scenario.clock (default 60 None) t).
  { intros t [<- | [<- | [<- | [<- | [<- | []]]]]]; vm_compute; reflexivity. }
  split; [exact H|].
  apply (calculateVolatility_time_translation (rt := decimalRuntime)
           Scenario.clock Scenario.steadyTrades None (-60000) H).
Defined.

(** C7 as stated fails.  With a trade fifty minutes old at price 20 and one
    ninety minutes old at price 30, a shift of 45 minutes towards the
    present keeps the first trade in the 60-minute window (five minutes
    old) and brings the second one into it (45 minutes old): the mean price
    moves from 20 to 25, the standard deviation from 0 to 5 and the score
    from 100 to 0. *)
Lemma time_translation_claim_fails :
  let m :=
    calculateVolatility (rt := decimalRuntime) Scenario.clock
      Scenario.oldAndNewTrades None in
  let m' :=
    calculateVolatility (rt := decimalRuntime) Scenario.clock
      (List.map (Spec.shiftTrade 2700000) Scenario.oldAndNewTrades) None in
  (forall t, In t Scenario.oldAndNewTrades ->
     inWindow Scenario.clock 60 t = true ->
     inWindow Scenario.clock 60 (Spec.shiftTrade 2700000 t) = true) /\
  (forall t, In t Scenario.oldAndNewTrades ->
     (Trade.executedAt (Spec.shiftTrade 2700000 t) <= Scenario.clock)%Z) /\
  (VolatilityMetrics.meanPrice m == 20 /\ VolatilityMetrics.meanPrice m' == 25) /\
  (VolatilityMetrics.standardDeviation m == 0 /\
   VolatilityMetrics.standardDeviation m' == 5) /\
  (VolatilityMetrics.score m == 100 /\ VolatilityMetrics.score m' == 0) /\
  ~ (VolatilityMetrics.standardDeviation m' == VolatilityMetrics.standardDeviation m /\
     VolatilityMetrics.meanPrice m' == VolatilityMetrics.meanPrice m /\
     VolatilityMetrics.score m' == VolatilityMetrics.score m).
Proof.
  intros m m'. split; [|split; [|split; [|split; [|split]]]].
  - intros t [<- | [<- | []]]; vm_compute; intros H; congruence.
  - intros t [<- | [<- | []]]; vm_compute; discriminate.
  - split; vm_compute; reflexivity.
  - split; vm_compute; reflexivity.
  - split; vm_compute; reflexivity.
  - intros (_ & Hmean & _). vm_compute in Hmean. discriminate.
Qed.

End VolatilityProperties.

(** ** Cache *)

Module CacheProperties.
Section WithData.
Context {T : Type}.
Variable cacheTTL : Q.
Local Open Scope Q_scope.

Lemma get_after_set_fresh
    (c : Cache.t T) (key : string) (data : T) (ttlSeconds : option Q)
    (setAt getAt : Z) :
  inject_Z (getAt - setAt) <= default cacheTTL ttlSeconds * 1000 ->
  Cache.get key getAt (Cache.set cacheTTL key data ttlSeconds setAt c) =
  (Some data,
   Cache.mk
     (<[key := CacheEntry.mk data setAt (default cacheTTL ttlSeconds * 1000)]>
        (Cache.store c))
     (CacheStats.mk (S (CacheStats.hits (Cache.stats c)))
        (CacheStats.misses (Cache.stats c))
        (S (CacheStats.sets (Cache.stats c))))).
Proof.
  intros Hage. unfold Cache.get, Cache.set. simpl.
  rewrite lookup_insert_eq. simpl.
  apply Qlt_bool_false in Hage. now rewrite Hage.
Qed.

Lemma get_after_set_expired
    (c : Cache.t T) (key : string) (data : T) (ttlSeconds : option Q)
    (setAt getAt : Z) :
  default cacheTTL ttlSeconds * 1000 < inject_Z (getAt - setAt) ->
  Cache.get key getAt (Cache.set cacheTTL key data ttlSeconds setAt c) =
  (None,
   Cache.mk (delete key (Cache.store c))
     (CacheStats.mk (CacheStats.hits (Cache.stats c))
        (S (CacheStats.misses (Cache.stats c)))
        (S (CacheStats.sets (Cache.stats c))))).
Proof.
  intros Hage. unfold Cache.get, Cache.set. simpl.
  rewrite lookup_insert_eq. simpl.
  apply Qlt_bool_true in Hage. rewrite Hage.
  now rewrite delete_insert_eq.
Qed.

Lemma get_Some_not_expired (c : Cache.t T) (key : string) (now : Z) (data : T) :
  (Cache.get key now c).1 = Some data ->
  exists entry,
    Cache.store c !! key = Some entry /\
    CacheEntry.data entry = data /\
    inject_Z (now - CacheEntry.timestamp entry) <= CacheEntry.ttl entry.
Proof.
  unfold Cache.get. destruct (Cache.store c !! key) as [entry|] eqn:E;
    [|discriminate].
  destruct (Qlt_bool (CacheEntry.ttl entry)
              (inject_Z (now - CacheEntry.timestamp entry))) eqn:Hage;
    [discriminate|].
  simpl. intros [= <-]. exists entry.
  repeat split. now apply Qlt_bool_false.
Qed.

(** C8.  For every cache, key, value and time-to-live, with the entry set
    at time [setAt] and read at time [getAt]:
    - a [get] no later than the time-to-live after the [set] returns the
      stored value and adds one to the hit counter, leaving the miss
      counter and the store as they were;
    - a [get] later than that returns null, adds one to the miss counter
      and removes the entry from the store;
    - whatever the cache holds, a [get] that returns a value returns the
      data of an entry whose age is at most its time-to-live. *)
Theorem set_then_get
    (c : Cache.t T) (key : string) (data : T) (ttlSeconds : option Q)
    (setAt getAt : Z) :
  let ttl := default cacheTTL ttlSeconds * 1000 in
  let c1 := Cache.set cacheTTL key data ttlSeconds setAt c in
  let r := Cache.get key getAt c1 in
  (inject_Z (getAt - setAt) <= ttl ->
   r.1 = Some data /\
   CacheStats.hits (Cache.stats r.2) = S (CacheStats.hits (Cache.stats c1)) /\
   CacheStats.misses (Cache.stats r.2) = CacheStats.misses (Cache.stats c1) /\
   Cache.store r.2 = Cache.store c1) /\
  (ttl < inject_Z (getAt - setAt) ->
   r.1 = None /\
   CacheStats.misses (Cache.stats r.2) = S (CacheStats.misses (Cache.stats c1)) /\
   CacheStats.hits (Cache.stats r.2) = CacheStats.hits (Cache.stats c1) /\
   Cache.store r.2 !! key = None /\
   Cache.store r.2 = delete key (Cache.store c1)) /\
  (forall (c' : Cache.t T) (key' : string) (now : Z) (data' : T),
     (Cache.get key' now c').1 = Some data' ->
     exists entry,
       Cache.store c' !! key' = Some entry /\
       CacheEntry.data entry = data' /\
       inject_Z (now - CacheEntry.timestamp entry) <= CacheEntry.ttl entry).
Proof.
  intros ttl c1 r. split; [|split].
  - intros Hage. subst r c1. rewrite get_after_set_fresh by exact Hage.
    repeat split.
  - intros Hage. subst r c1. rewrite get_after_set_expired by exact Hage.
    simpl. repeat split.
    + apply lookup_delete_eq.
    + now rewrite delete_insert_eq.
  - intros c' key' now data'. apply get_Some_not_expired.
Qed.

End WithData.

Local Open Scope Q_scope.

(** An entry set at time 1000 with a time-to-live of 30 seconds: read at
    31000 (age 30000) it is a hit, read at 31001 a miss. *)
Lemma set_then_get_witness :
  let c1 := Cache.set 30 "liquidity:INJ/USDT" 42%Z None 1000 Cache.empty in
  (inject_Z (31000 - 1000) <= default 30 None * 1000 /\
   (Cache.get "liquidity:INJ/USDT" 31000 c1).1 = Some 42%Z) /\
  (default 30 None * 1000 < inject_Z (31001 - 1000) /\
   (Cache.get "liquidity:INJ/USDT" 31001 c1).1 = None /\
   Cache.store (Cache.get "liquidity:INJ/USDT" 31001 c1).2
     !! "liquidity:INJ/USDT" = None).
Proof.
  intros c1.
  assert (Hfresh : inject_Z (31000 - 1000) <= default 30 None * 1000)
    by (vm_compute; discriminate).
  assert (Hold : default 30 None * 1000 < inject_Z (31001 - 1000))
    by (vm_compute; reflexivity).
  split.
  - split; [exact Hfresh|].
    exact (proj1 (proj1 (set_then_get 30 Cache.empty "liquidity:INJ/USDT" 42%Z
                           None 1000 31000) Hfresh)).
  - split; [exact Hold|].
    destruct (proj1 (proj2 (set_then_get 30 Cache.empty "liquidity:INJ/USDT" 42%Z
                              None 1000 31001)) Hold) as (Hnone & _ & _ & Hgone & _).
    split; [exact Hnone | exact Hgone].
Defined.

End CacheProperties.

(** ** The stream store *)

Module StreamProperties.

Lemma getOrderbook_setOrderbook
    (s : StreamStore.t) (marketId : string) (orderbook : OrderbookData.t) :
  StreamStore.getOrderbook marketId (StreamStore.setOrderbook marketId orderbook s)
  = Some orderbook.
Proof. unfold StreamStore.getOrderbook, StreamStore.setOrderbook. simpl. apply lookup_insert_eq. Qed.

Lemma getOrderbook_setOrderbook_other
    (s : StreamStore.t) (marketId other : string) (orderbook : OrderbookData.t) :
  marketId <> other ->
  StreamStore.getOrderbook other (StreamStore.setOrderbook marketId orderbook s)
  = StreamStore.getOrderbook other s.
Proof.
  intros Hne. unfold StreamStore.getOrderbook, StreamStore.setOrderbook. simpl.
  now apply lookup_insert_ne.
Qed.

(** C5 (as amended).  The store compares no sequence numbers: after the
    stream callback has handled a response for a market, the stored
    snapshot of that market is the one built from the response, whatever
    its sequence number and whatever was stored before, and the snapshots
    of the other markets are unchanged. *)
Theorem incoming_snapshot_always_stored
    (store : StreamStore.t) (marketId : string)
    (response : StreamingService.OrderbookResponse) :
  let store' := StreamingService.onOrderbookResponse marketId response store in
  StreamingService.getCachedOrderbook marketId store'
  = Some (StreamingService.orderbookOfResponse response) /\
  (forall other, marketId <> other ->
     StreamingService.getCachedOrderbook other store'
     = StreamingService.getCachedOrderbook other store) /\
  StreamStore.trades store' = StreamStore.trades store.
Proof.
  intros store'. subst store'.
  unfold StreamingService.onOrderbookResponse, StreamingService.getCachedOrderbook.
  split; [apply getOrderbook_setOrderbook|].
  split; [|reflexivity].
  intros other Hne. now apply getOrderbook_setOrderbook_other.
Qed.

(** C5 as stated fails: with the snapshot of sequence 5 stored, a response
    carrying sequence 3 replaces it. *)
Lemma stale_snapshot_replaces_newer :
  let stored := StreamStore.setOrderbook "INJ/USDT" Scenario.newerSnapshot StreamStore.empty in
  let store' :=
    StreamingService.onOrderbookResponse "INJ/USDT"
      (StreamingService.mkResponse (Some Scenario.staleSnapshot)) stored in
  (OrderbookData.sequence Scenario.staleSnapshot
   <= OrderbookData.sequence Scenario.newerSnapshot)%Z /\
  StreamStore.getOrderbook "INJ/USDT" stored = Some Scenario.newerSnapshot /\
  StreamStore.getOrderbook "INJ/USDT" store' = Some Scenario.staleSnapshot /\
  StreamStore.getOrderbook "INJ/USDT" store' <> StreamStore.getOrderbook "INJ/USDT" stored.
Proof.
  intros stored store'.
  assert (E1 : StreamStore.getOrderbook "INJ/USDT" stored = Some Scenario.newerSnapshot)
    by apply getOrderbook_setOrderbook.
  assert (E2 : StreamStore.getOrderbook "INJ/USDT" store' = Some Scenario.staleSnapshot)
    by apply getOrderbook_setOrderbook.
  split; [vm_compute; discriminate|].
  split; [exact E1|]. split; [exact E2|].
  rewrite E1, E2. discriminate.
Qed.

End StreamProperties.

(** ** The cache key of the comparison route *)

Module CompareProperties.
Import CompareRoute.

Lemma sort_permutation (ids1 ids2 : list string) :
  ids1 ≡ₚ ids2 -> sort ids1 = sort ids2.
Proof.
  intros P. unfold sort.
  apply (Sorted_unique String.le).
  - apply Sorted_merge_sort; apply _.
  - apply Sorted_merge_sort; apply _.
  - now rewrite !merge_sort_Permutation.
Qed.

Lemma cacheKeyOfIds_permutation (ids1 ids2 : list string) :
  ids1 ≡ₚ ids2 -> cacheKeyOfIds ids1 = cacheKeyOfIds ids2.
Proof. intros P. unfold cacheKeyOfIds. now rewrite (sort_permutation _ _ P). Qed.

Lemma cacheKey_permutation (p1 p2 : string) :
  marketIdsOf p1 ≡ₚ marketIdsOf p2 -> cacheKey p1 = cacheKey p2.
Proof. apply cacheKeyOfIds_permutation. Qed.

Lemma split_commaFree (id : string) :
  Spec.commaFree id = true -> split "," id = [id].
Proof.
  induction id as [|a id IH]; simpl; [reflexivity|].
  intros [Ha Hid]%andb_true_iff. apply negb_true_iff in Ha.
  now rewrite Ha, (IH Hid).
Qed.

Lemma split_app_comma (id rest : string) :
  Spec.commaFree id = true ->
  split "," (id +:+ String "," rest) = id :: split "," rest.
Proof.
  induction id as [|a id IH]; simpl; [reflexivity|].
  intros [Ha Hid]%andb_true_iff. apply negb_true_iff in Ha.
  now rewrite Ha, (IH Hid).
Qed.

(** Splitting the comma-separated list of identifiers gives them back. *)
Lemma split_concat (ids : list string) :
  ids <> [] ->
  Forall (fun id => Spec.commaFree id = true) ids ->
  split "," (String.concat "," ids) = ids.
Proof.
  induction ids as [|id ids IH]; intros Hne Hfree; [congruence|].
  inversion Hfree as [|? ? Hid Hids]; subst.
  destruct ids as [|id' ids].
  - simpl. now apply split_commaFree.
  - change (String.concat "," (id :: id' :: ids))
      with (id +:+ String "," (String.concat "," (id' :: ids))).
    rewrite (split_app_comma _ _ Hid). f_equal.
    apply IH; [discriminate | exact Hids].
Qed.

Lemma compareSchema_concat (ids : list string) :
  (2 <= length ids <= 5)%nat ->
  Forall (fun id => Spec.commaFree id = true) ids ->
  compareSchema (String.concat "," ids) = true.
Proof.
  intros [Hlo Hhi] Hfree. unfold compareSchema.
  assert (Hne : ids <> []) by (intros ->; simpl in Hlo; lia).
  pose proof (split_concat ids Hne Hfree) as E.
  rewrite E.
  apply andb_true_iff; split.
  - destruct (String.concat "," ids) eqn:Hs; [|reflexivity].
    simpl in E. rewrite <- E in Hlo. simpl in Hlo. lia.
  - apply andb_true_iff; split; apply Nat.leb_le; assumption.
Qed.

(** C9.  The cache key of the comparison is built from the sorted list of
    identifiers: for every list of 2 to 5 identifiers and every permutation
    of it, the two requests pass the schema, give the same cache key, which
    is ["compare:"] followed by the sorted trimmed identifiers joined by
    commas, and so read the same cache entry. *)
Theorem compare_cacheKey_permutation (ids1 ids2 : list string) :
  (2 <= length ids1 <= 5)%nat ->
  Forall (fun id => Spec.commaFree id = true) ids1 ->
  ids1 ≡ₚ ids2 ->
  let markets1 := String.concat "," ids1 in
  let markets2 := String.concat "," ids2 in
  compareSchema markets1 = true /\
  compareSchema markets2 = true /\
  cacheKey markets1 = "compare:" +:+ String.concat "," (sort (List.map trim ids1)) /\
  cacheKey markets1 = cacheKey markets2 /\
  (forall (T : Type) (c : Cache.t T) (now : Z),
     Cache.get (cacheKey markets1) now c = Cache.get (cacheKey markets2) now c).
Proof.
  intros Hlen Hfree P markets1 markets2.
  assert (Hlen2 : (2 <= length ids2 <= 5)%nat) by now rewrite <- P.
  assert (Hfree2 : Forall (fun id => Spec.commaFree id = true) ids2)
    by now rewrite <- P.
  assert (Hne1 : ids1 <> []) by (intros ->; simpl in Hlen; lia).
  assert (Hne2 : ids2 <> []) by (intros ->; simpl in Hlen2; lia).
  assert (E1 : marketIdsOf markets1 = List.map trim ids1).
  { unfold marketIdsOf, markets1. now rewrite split_concat. }
  assert (E2 : marketIdsOf markets2 = List.map trim ids2).
  { unfold marketIdsOf, markets2. now rewrite split_concat. }
  assert (K : cacheKey markets1 = cacheKey markets2).
  { apply cacheKey_permutation. rewrite E1, E2. now apply Permutation_map. }
  split; [now apply compareSchema_concat|].
  split; [now apply compareSchema_concat|].
  split; [unfold cacheKey, cacheKeyOfIds; now rewrite E1|].
  split; [exact K|].
  intros T c now. now rewrite K.
Qed.

Lemma compare_cacheKey_permutation_witness :
  (2 <= length ["INJ/USDT"; "ATOM/USDT"; "WETH/USDT"] <= 5)%nat /\
  Forall (fun id => Spec.commaFree id = true)
    ["INJ/USDT"; "ATOM/USDT"; "WETH/USDT"] /\
  ["INJ/USDT"; "ATOM/USDT"; "WETH/USDT"] ≡ₚ ["WETH/USDT"; "INJ/USDT"; "ATOM/USDT"] /\
  cacheKey "INJ/USDT,ATOM/USDT,WETH/USDT" = "compare:ATOM/USDT,INJ/USDT,WETH/USDT" /\
  cacheKey "INJ/USDT,ATOM/USDT,WETH/USDT" = cacheKey "WETH/USDT,INJ/USDT,ATOM/USDT".
Proof.
  assert (Hlen : (2 <= length ["INJ/USDT"; "ATOM/USDT"; "WETH/USDT"] <= 5)%nat)
    by (simpl; lia).
  assert (Hfree : Forall (fun id => Spec.commaFree id = true)
                    ["INJ/USDT"; "ATOM/USDT"; "WETH/USDT"])
    by (repeat constructor).
  assert (P : ["INJ/USDT"; "ATOM/USDT"; "WETH/USDT"]
              ≡ₚ ["WETH/USDT"; "INJ/USDT"; "ATOM/USDT"])
    by solve_Permutation.
  destruct (compare_cacheKey_permutation _ _ Hlen Hfree P) as (_ & _ & K1 & K2 & _).
  split; [exact Hlen|]. split; [exact Hfree|]. split; [exact P|].
  split; [reflexivity | exact K2].
Defined.

End CompareProperties.

(** ** Concrete order books in binary64 arithmetic *)

Module Binary64Properties.
Local Open Scope float_scope.
#[local] Set Warnings "-inexact-float".

(** The two prices of the tight book are read as the binary64 numbers
    nearest to 19.95 and 20.05. *)
Lemma tight_book_prices :
  Binary64.parseFloat "19.95" = 19.95 /\ Binary64.parseFloat "20.05" = 20.05.
Proof. split; vm_compute; reflexivity. Qed.

(** C2 (as amended).  For the book with best bid 19.95 / 100 and best ask
    20.05 / 100 the code computes, in binary64, the mid price 20, the
    spread 0.10000000000000142 and the spread percentage
    0.5000000000000071 (0.10 and 0.5 at the displayed precision); the
    percentage is above the 0.5 threshold, so the spread score is 60 and
    the spread risk is 50. *)
Theorem tight_book_scenario :
  let m := Binary64.LiquidityService.calculateLiquidity Scenario.tightBook in
  Binary64.LiquidityMetrics.midPrice m = 20 /\
  Binary64.LiquidityMetrics.spread m = 0.10000000000000142 /\
  Binary64.LiquidityMetrics.spreadPercent m = 0.5000000000000071 /\
  (0.5 <? Binary64.LiquidityMetrics.spreadPercent m) = true /\
  Binary64.HealthService.calculateSpreadScore (Binary64.LiquidityMetrics.spreadPercent m) = 60 /\
  Binary64.RiskService.calculateSpreadRisk m = 50.
Proof. repeat split; vm_compute; reflexivity. Qed.

(** C2 as stated fails: on that book the spread is not 0.10, the spread
    percentage is not 0.5, the spread score is not 80 and the spread risk
    is not 30. *)
Lemma tight_book_claim_fails :
  let m := Binary64.LiquidityService.calculateLiquidity Scenario.tightBook in
  (Binary64.LiquidityMetrics.spread m =? 0.1) = false /\
  (Binary64.LiquidityMetrics.spreadPercent m =? 0.5) = false /\
  (Binary64.HealthService.calculateSpreadScore (Binary64.LiquidityMetrics.spreadPercent m) =? 80)
  = false /\
  (Binary64.RiskService.calculateSpreadRisk m =? 30) = false /\
  ~ ((Binary64.LiquidityMetrics.midPrice m =? 20) = true /\
     (Binary64.LiquidityMetrics.spread m =? 0.1) = true /\
     (Binary64.LiquidityMetrics.spreadPercent m =? 0.5) = true /\
     (Binary64.HealthService.calculateSpreadScore (Binary64.LiquidityMetrics.spreadPercent m) =? 80)
     = true /\
     (Binary64.RiskService.calculateSpreadRisk m =? 30) = true).
Proof.
  repeat split; try (vm_compute; reflexivity).
  intros (_ & _ & _ & Hscore & _). vm_compute in Hscore. discriminate.
Qed.

(** The bucket at the threshold depends on the rounding: the book 1.995 /
    2.005 has the same exact spread percentage, but in binary64 it comes
    out just below 0.5 and the book gets the score 80 and the risk 30. *)
Lemma tenth_book_scenario :
  let m := Binary64.LiquidityService.calculateLiquidity Scenario.tenthBook in
  Binary64.LiquidityMetrics.midPrice m = 2 /\
  Binary64.LiquidityMetrics.spreadPercent m = 0.49999999999998934 /\
  Binary64.HealthService.calculateSpreadScore (Binary64.LiquidityMetrics.spreadPercent m) = 80 /\
  Binary64.RiskService.calculateSpreadRisk m = 30.
Proof. repeat split; vm_compute; reflexivity. Qed.

(** The depths of the tight book: both levels lie within one percent of
    the mid price. *)
Lemma tight_book_depths :
  let m := Binary64.LiquidityService.calculateLiquidity Scenario.tightBook in
  Binary64.LiquidityMetrics.bidDepth m = 100 /\
  Binary64.LiquidityMetrics.askDepth m = 100 /\
  Binary64.LiquidityMetrics.totalDepth m = 200 /\
  Binary64.LiquidityMetrics.depth1Percent m = 200 /\
  Binary64.LiquidityMetrics.depth5Percent m = 200.
Proof. repeat split; vm_compute; reflexivity. Qed.

(** A spread percentage of exactly 200 is reached in binary64 when the
    best bid is lost in the rounding of the sum and of the difference. *)
Lemma lopsided_book_scenario :
  let m := Binary64.LiquidityService.calculateLiquidity Scenario.lopsidedBook in
  Binary64.LiquidityMetrics.midPrice m = 0.5 /\
  Binary64.LiquidityMetrics.spread m = 1 /\
  Binary64.LiquidityMetrics.spreadPercent m = 200.
Proof. repeat split; vm_compute; reflexivity. Qed.

(** The mean of three prices 0.1 is one unit in the last place above 0.1:
    a mean of equal prices need not be that price, which is why the
    general theorems on [calculateVolatility] state signs, levels and
    scores and no exact mean. *)
Lemma mean_of_equal_prices :
  let prices := List.map Binary64.parseFloat ["0.1"; "0.1"; "0.1"]%string in
  Binary64.VolatilityService.calculateMean prices = 0.10000000000000002 /\
  (0.1 <? Binary64.VolatilityService.calculateMean prices) = true.
Proof. split; vm_compute; reflexivity. Qed.

(** A string without a number reads as [NaN], which is not below any
    threshold: the ladders then return their last value. *)
Lemma unreadable_price :
  (Binary64.parseFloat "n/a" =? Binary64.parseFloat "n/a") = false /\
  Binary64.HealthService.calculateSpreadScore (Binary64.parseFloat "n/a") = 10.
Proof. split; vm_compute; reflexivity. Qed.

End Binary64Properties.


(** * Further properties of the services *)

(** ** Clamped and rounded scores *)

Section Clamp.
Local Open Scope Q_scope.



Lemma clamp_id (x : Q) : 0 <= x <= 100 -> Math_max 0 (Math_min 100 x) == x.
Proof.
  intros [Hlo Hhi]. unfold Math_max, Math_min.
  rewrite (Q.min_r 100 x) by exact Hhi. now apply Q.max_r.
Qed.

Lemma Qfloor_lower (x : Q) (z : Z) : inject_Z z <= x -> (z <= Qfloor x)%Z.
Proof. intros H. rewrite <- (Qfloor_Z z). now apply Qfloor_resp_le. Qed.

Lemma Qfloor_upper (x : Q) (z : Z) : x < inject_Z z -> (Qfloor x < z)%Z.
Proof.
  intros H. rewrite Zlt_Qlt.
  apply Qle_lt_trans with x; [apply Qfloor_le | exact H].
Qed.

Lemma Qfloor_unique (x : Q) (z : Z) :
  inject_Z z <= x -> x < inject_Z (z + 1) -> Qfloor x = z.
Proof.
  intros Hlo Hhi. apply Qfloor_lower in Hlo. apply Qfloor_upper in Hhi. lia.
Qed.

Lemma Math_round_inject_Z (z : Z) : Math_round (inject_Z z) = inject_Z z.
Proof.
  unfold Math_round. f_equal. apply Qfloor_unique.
  - lra.
  - rewrite inject_Z_plus. change (inject_Z 1) with 1. lra.
Qed.

(** Rounding a number between two integers stays between them. *)
Lemma Math_round_between (lo hi : Z) (x : Q) :
  inject_Z lo <= x <= inject_Z hi ->
  inject_Z lo <= Math_round x <= inject_Z hi.
Proof.
  intros [Hlo Hhi]. split.
  - rewrite <- (Math_round_inject_Z lo). now apply Math_round_le.
  - rewrite <- (Math_round_inject_Z hi). now apply Math_round_le.
Qed.

End Clamp.

(** ** More on LiquidityService *)

Module LiquidityMore.
Section WithRuntime.
Context {rt : Runtime}.
Import LiquidityService.
Local Open Scope Q_scope.

Lemma depth_acc (levels : list PriceLevel.t) (a : Q) :
  fold_left (fun sum level => sum + parseFloat (PriceLevel.quantity level)) levels a
  == a + calculateDepth levels.
Proof.
  unfold calculateDepth. revert a.
  induction levels as [|l levels IH]; intros a; simpl; [ring|].
  rewrite (IH (a + _)), (IH (0 + _)). ring.
Qed.

Lemma depth_cons (l : PriceLevel.t) (levels : list PriceLevel.t) :
  calculateDepth (l :: levels)
  == parseFloat (PriceLevel.quantity l) + calculateDepth levels.
Proof. unfold calculateDepth at 1. simpl. rewrite depth_acc. ring. Qed.


(** A wider filter keeps at least as much depth. *)
Lemma depth_filter_le (f g : PriceLevel.t -> bool) (levels : list PriceLevel.t) :
  (forall l, In l levels -> 0 <= parseFloat (PriceLevel.quantity l)) ->
  (forall l, In l levels -> f l = true -> g l = true) ->
  calculateDepth (List.filter f levels) <= calculateDepth (List.filter g levels).
Proof.
  induction levels as [|l levels IH]; intros Hq Hfg; [apply Qle_refl|].
  assert (Hl : 0 <= parseFloat (PriceLevel.quantity l)) by (apply Hq; now left).
  assert (IH' : calculateDepth (List.filter f levels)
                <= calculateDepth (List.filter g levels)).
  { apply IH; intros x Hx; [apply Hq | apply Hfg]; now right. }
  simpl. destruct (f l) eqn:Ef.
  - rewrite (Hfg l (or_introl eq_refl) Ef). rewrite !depth_cons. lra.
  - destruct (g l); [rewrite depth_cons|]; lra.
Qed.

Lemma depth_filter_le_all (f : PriceLevel.t -> bool) (levels : list PriceLevel.t) :
  (forall l, In l levels -> 0 <= parseFloat (PriceLevel.quantity l)) ->
  calculateDepth (List.filter f levels) <= calculateDepth levels.
Proof.
  intros Hq.
  rewrite <- (filter_all (fun _ => true) levels) at 2 by reflexivity.
  apply depth_filter_le; [exact Hq | reflexivity].
Qed.

Lemma calculateMidPrice_nonneg (ob : OrderbookData.t) :
  (forall l, In l (OrderbookData.buys ob ++ OrderbookData.sells ob) ->
             0 <= parseFloat (PriceLevel.price l)) ->
  0 <= calculateMidPrice ob.
Proof.
  intros Hp. unfold calculateMidPrice.
  destruct (OrderbookData.buys ob) as [|b bs] eqn:Eb; [apply Qle_refl|].
  destruct (OrderbookData.sells ob) as [|a asks] eqn:Ea.
  { rewrite orb_true_r. apply Qle_refl. }
  destruct (_ || _); [apply Qle_refl|].
  assert (0 <= parseFloat (PriceLevel.price b)) by (apply Hp; now left).
  assert (0 <= parseFloat (PriceLevel.price a))
    by (apply Hp, in_or_app; right; now left).
  apply Qle_shift_div_l; lra.
Qed.

(** X2.  On a book whose prices and quantities are not negative, the depth
    within 1% of the mid price is at most the depth within 5%, which is at
    most the total depth. *)
Theorem depth_bands_nested (now : Z) (ob : OrderbookData.t) :
  (forall l, In l (OrderbookData.buys ob ++ OrderbookData.sells ob) ->
             0 <= parseFloat (PriceLevel.price l) /\
             0 <= parseFloat (PriceLevel.quantity l)) ->
  let m := calculateLiquidity now ob in
  LiquidityMetrics.depth1Percent m <= LiquidityMetrics.depth5Percent m /\
  LiquidityMetrics.depth5Percent m <= LiquidityMetrics.totalDepth m.
Proof.
  intros H m.
  assert (Hmid : 0 <= calculateMidPrice ob)
    by (apply calculateMidPrice_nonneg; intros l Hl; apply H, Hl).
  assert (Hb : forall l, In l (OrderbookData.buys ob) ->
                         0 <= parseFloat (PriceLevel.quantity l))
    by (intros l Hl; apply H, in_or_app; now left).
  assert (Ha : forall l, In l (OrderbookData.sells ob) ->
                         0 <= parseFloat (PriceLevel.quantity l))
    by (intros l Hl; apply H, in_or_app; now right).
  split.
  - apply Qplus_le_compat; apply depth_filter_le; try assumption;
      intros l _ Hin; apply Qle_bool_iff; apply Qle_bool_iff in Hin; nra.
  - apply Qplus_le_compat; apply depth_filter_le_all; assumption.
Qed.

Lemma Qeq_bool_pos (x : Q) : 0 < x -> Qeq_bool x 0 = false.
Proof.
  intros H. apply not_true_iff_false. rewrite Qeq_bool_iff. lra.
Qed.

Lemma calculateMidPrice_two_sided
    (ob : OrderbookData.t) (b a : PriceLevel.t) (bs asks : list PriceLevel.t) :
  OrderbookData.buys ob = b :: bs ->
  OrderbookData.sells ob = a :: asks ->
  0 < parseFloat (PriceLevel.price b) ->
  0 < parseFloat (PriceLevel.price a) ->
  calculateMidPrice ob
  = (parseFloat (PriceLevel.price b) + parseFloat (PriceLevel.price a)) / 2.
Proof.
  intros Eb Ea Hb Ha. unfold calculateMidPrice. rewrite Eb, Ea.
  now rewrite (Qeq_bool_pos _ Hb), (Qeq_bool_pos _ Ha).
Qed.


(** X4.  On a book whose prices are all positive, the mid price is 0
    exactly when the bid side or the ask side is empty. *)
Theorem midPrice_zero_iff_empty_side (now : Z) (ob : OrderbookData.t) :
  (forall l, In l (OrderbookData.buys ob ++ OrderbookData.sells ob) ->
             0 < parseFloat (PriceLevel.price l)) ->
  (LiquidityMetrics.midPrice (calculateLiquidity now ob) == 0 <->
   OrderbookData.buys ob = [] \/ OrderbookData.sells ob = []).
Proof.
  intros Hpos. split.
  - intros Hzero.
    destruct (OrderbookData.buys ob) as [|b bs] eqn:Eb; [now left|].
    destruct (OrderbookData.sells ob) as [|a asks] eqn:Ea; [now right|].
    exfalso.
    assert (Hb : 0 < parseFloat (PriceLevel.price b)) by (apply Hpos; now left).
    assert (Ha : 0 < parseFloat (PriceLevel.price a))
      by (apply Hpos, in_or_app; right; now left).
    simpl in Hzero.
    rewrite (calculateMidPrice_two_sided ob b a bs asks Eb Ea Hb Ha) in Hzero.
    assert (0 < (parseFloat (PriceLevel.price b) + parseFloat (PriceLevel.price a)) / 2)
      by (apply Qlt_shift_div_l; [reflexivity | lra]).
    lra.
  - intros H. simpl.
    now rewrite (LiquidityProperties.calculateMidPrice_empty_side ob H).
Qed.

End WithRuntime.

Import LiquidityService.
Local Open Scope Q_scope.

Lemma depth_bands_nested_witness :
  (forall l,
     In l (OrderbookData.buys Scenario.tightBook ++
           OrderbookData.sells Scenario.tightBook) ->
     0 <= parseFloat (Runtime := decimalRuntime) (PriceLevel.price l) /\
     0 <= parseFloat (Runtime := decimalRuntime) (PriceLevel.quantity l)) /\
  let m := calculateLiquidity (rt := decimalRuntime) 0 Scenario.tightBook in
  LiquidityMetrics.depth1Percent m <= LiquidityMetrics.depth5Percent m /\
  LiquidityMetrics.depth5Percent m <= LiquidityMetrics.totalDepth m.
Proof.
  assert (H : forall l,
     In l (OrderbookData.buys Scenario.tightBook ++
           OrderbookData.sells Scenario.tightBook) ->
     0 <= parseFloat (Runtime := decimalRuntime) (PriceLevel.price l) /\
     0 <= parseFloat (Runtime := decimalRuntime) (PriceLevel.quantity l)).
  { intros l [<- | [<- | []]]; split; vm_compute; discriminate. }
  split; [exact H|].
  exact (depth_bands_nested (rt := decimalRuntime) 0 Scenario.tightBook H).
Defined.


Lemma midPrice_zero_iff_empty_side_witness :
  (forall l,
     In l (OrderbookData.buys Scenario.askOnlyBook ++
           OrderbookData.sells Scenario.askOnlyBook) ->
     0 < parseFloat (Runtime := decimalRuntime) (PriceLevel.price l)) /\
  (LiquidityMetrics.midPrice
     (calculateLiquidity (rt := decimalRuntime) 0 Scenario.askOnlyBook) == 0 <->
   OrderbookData.buys Scenario.askOnlyBook = [] \/
   OrderbookData.sells Scenario.askOnlyBook = []).
Proof.
  assert (H : forall l,
     In l (OrderbookData.buys Scenario.askOnlyBook ++
           OrderbookData.sells Scenario.askOnlyBook) ->
     0 < parseFloat (Runtime := decimalRuntime) (PriceLevel.price l)).
  { intros l [<- | []]; vm_compute; reflexivity. }
  split; [exact H|].
  exact (midPrice_zero_iff_empty_side (rt := decimalRuntime) 0 Scenario.askOnlyBook H).
Defined.

End LiquidityMore.

(** ** More on HealthService and RiskService *)

Module AggregatorMore.
Local Open Scope Q_scope.

Lemma calculateSpreadScore_antitone (x y : Q) :
  x <= y -> HealthService.calculateSpreadScore y <= HealthService.calculateSpreadScore x.
Proof.
  intros Hxy. unfold HealthService.calculateSpreadScore.
  repeat match goal with
  | |- context [Qlt_bool ?a ?b] =>
      let E := fresh "E" in
      destruct (Qlt_bool a b) eqn:E;
      [apply Qlt_bool_true in E | apply Qlt_bool_false in E]
  end; try discriminate; lra.
Qed.

Lemma calculateSpreadRisk_monotone (l l' : LiquidityMetrics.t) :
  LiquidityMetrics.spreadPercent l <= LiquidityMetrics.spreadPercent l' ->
  RiskService.calculateSpreadRisk l <= RiskService.calculateSpreadRisk l'.
Proof.
  intros Hxy. unfold RiskService.calculateSpreadRisk.
  repeat match goal with
  | |- context [Qlt_bool ?a ?b] =>
      let E := fresh "E" in
      destruct (Qlt_bool a b) eqn:E;
      [apply Qlt_bool_true in E | apply Qlt_bool_false in E]
  end; try discriminate; lra.
Qed.

Lemma determineStatus_monotone (x y : Q) :
  x <= y ->
  (Tier.healthRank (HealthService.determineStatus x)
   <= Tier.healthRank (HealthService.determineStatus y))%nat.
Proof.
  intros Hxy. unfold HealthService.determineStatus.
  repeat match goal with
  | |- context [Qle_bool ?a ?b] =>
      let E := fresh "E" in
      destruct (Qle_bool a b) eqn:E;
      [apply Qle_bool_iff in E
      | apply not_true_iff_false in E; rewrite Qle_bool_iff in E]
  end; simpl; try lia; exfalso; lra.
Qed.

Lemma classifyRiskLevel_monotone (x y : Q) :
  x <= y ->
  (Tier.riskRank (RiskService.classifyRiskLevel x)
   <= Tier.riskRank (RiskService.classifyRiskLevel y))%nat.
Proof.
  intros Hxy. unfold RiskService.classifyRiskLevel.
  repeat match goal with
  | |- context [Qlt_bool ?a ?b] =>
      let E := fresh "E" in
      destruct (Qlt_bool a b) eqn:E;
      [apply Qlt_bool_true in E | apply Qlt_bool_false in E]
  end; simpl; try lia; exfalso; lra.
Qed.

(** X5.  Better inputs never give a worse health assessment: if the three
    analyzer scores do not decrease and the spread percentage does not
    increase, the health score of [calculateHealth] does not decrease and
    its status does not move down the order CRITICAL, WARNING, HEALTHY. *)
Theorem calculateHealth_monotone
    (now now' : Z) (l l' : LiquidityMetrics.t) (v v' : VolatilityMetrics.t)
    (vol vol' : VolumeMetrics.t) :
  LiquidityMetrics.score l <= LiquidityMetrics.score l' ->
  VolatilityMetrics.score v <= VolatilityMetrics.score v' ->
  VolumeMetrics.score vol <= VolumeMetrics.score vol' ->
  LiquidityMetrics.spreadPercent l' <= LiquidityMetrics.spreadPercent l ->
  let h := HealthService.calculateHealth now l v vol in
  let h' := HealthService.calculateHealth now' l' v' vol' in
  HealthScore.score h <= HealthScore.score h' /\
  (Tier.healthRank (HealthScore.status h)
   <= Tier.healthRank (HealthScore.status h'))%nat.
Proof.
  intros Hl Hv Hvol Hsp h h'.
  pose proof (calculateSpreadScore_antitone _ _ Hsp) as Hs.
  assert (Hscore : HealthScore.score h <= HealthScore.score h').
  { subst h h'. unfold HealthService.calculateHealth. simpl.
    unfold HealthService.calculateOverallScore.
    apply Math_round_le, Math_max_le, Math_min_le. simpl. lra. }
  split; [exact Hscore|].
  now apply determineStatus_monotone.
Qed.

(** X6.  Better inputs never give a higher risk: if the three analyzer
    scores do not decrease and the spread percentage does not increase,
    the risk score of [calculateRisk] does not increase and its level does
    not move up the order LOW, MEDIUM, HIGH, EXTREME. *)
Theorem calculateRisk_antitone
    (now now' : Z) (l l' : LiquidityMetrics.t) (v v' : VolatilityMetrics.t)
    (vol vol' : VolumeMetrics.t) :
  LiquidityMetrics.score l <= LiquidityMetrics.score l' ->
  VolatilityMetrics.score v <= VolatilityMetrics.score v' ->
  VolumeMetrics.score vol <= VolumeMetrics.score vol' ->
  LiquidityMetrics.spreadPercent l' <= LiquidityMetrics.spreadPercent l ->
  let r := RiskService.calculateRisk now l v vol in
  let r' := RiskService.calculateRisk now' l' v' vol' in
  RiskMetrics.score r' <= RiskMetrics.score r /\
  (Tier.riskRank (RiskMetrics.level r') <= Tier.riskRank (RiskMetrics.level r))%nat.
Proof.
  intros Hl Hv Hvol Hsp r r'.
  pose proof (calculateSpreadRisk_monotone _ _ Hsp) as Hs.
  assert (Hscore : RiskMetrics.score r' <= RiskMetrics.score r).
  { subst r r'. unfold RiskService.calculateRisk. simpl.
    unfold RiskService.calculateOverallRiskScore.
    apply Math_round_le, Math_max_le, Math_min_le. simpl.
    unfold RiskService.calculateLiquidityRisk, RiskService.calculateVolatilityRisk,
      RiskService.calculateVolumeRisk. lra. }
  split; [exact Hscore|].
  now apply classifyRiskLevel_monotone.
Qed.

(** X7.  The weights of each aggregate sum to 1: when the four component
    scores (or the four risk factors) all lie between two integers [lo] and
    [hi] within 0 and 100, so does the overall score. *)
Theorem overall_scores_between (lo hi : Z) (a b c d : Q) :
  (0 <= lo)%Z -> (hi <= 100)%Z ->
  inject_Z lo <= a <= inject_Z hi ->
  inject_Z lo <= b <= inject_Z hi ->
  inject_Z lo <= c <= inject_Z hi ->
  inject_Z lo <= d <= inject_Z hi ->
  inject_Z lo <= HealthService.calculateOverallScore (HealthComponents.mk a b c d)
    <= inject_Z hi /\
  inject_Z lo <= RiskService.calculateOverallRiskScore (RiskFactors.mk a b c d)
    <= inject_Z hi.
Proof.
  intros Hlo Hhi Ha Hb Hc Hd.
  assert (Hlo' : 0 <= inject_Z lo) by (change 0 with (inject_Z 0); now rewrite <- Zle_Qle).
  assert (Hhi' : inject_Z hi <= 100)
    by (change 100 with (inject_Z 100); now rewrite <- Zle_Qle).
  unfold HealthService.calculateOverallScore, RiskService.calculateOverallRiskScore.
  simpl. split.
  - assert (Hw : inject_Z lo <= a * 0.35 + b * 0.25 + c * 0.25 + d * 0.15 <= inject_Z hi)
      by lra.
    apply Math_round_between. rewrite clamp_id by lra. exact Hw.
  - assert (Hw : inject_Z lo <= a * 0.35 + b * 0.30 + c * 0.20 + d * 0.15 <= inject_Z hi)
      by lra.
    apply Math_round_between. rewrite clamp_id by lra. exact Hw.
Qed.

Lemma app_nil_iff {A} (l1 l2 : list A) : l1 ++ l2 = [] <-> l1 = [] /\ l2 = [].
Proof.
  split; [apply app_eq_nil | intros [-> ->]; reflexivity].
Qed.

(** X8.  [calculateRisk] raises no warning exactly when the liquidity score
    is at least 50, the spread percentage at most 1, the volatility level
    LOW or MODERATE, the trade count at least 10, the volume change at
    least -50 and the depth within 1% at least 1000; and it never raises
    more than six. *)
Theorem warnings_empty_iff
    (now : Z) (l : LiquidityMetrics.t) (v : VolatilityMetrics.t)
    (vol : VolumeMetrics.t) :
  let r := RiskService.calculateRisk now l v vol in
  (RiskMetrics.warnings r = [] <->
   50 <= LiquidityMetrics.score l /\
   LiquidityMetrics.spreadPercent l <= 1 /\
   (VolatilityMetrics.level v = VolatilityLevel.LOW \/
    VolatilityMetrics.level v = VolatilityLevel.MODERATE) /\
   10 <= VolumeMetrics.tradeCount vol /\
   -50 <= VolumeMetrics.volumeChange vol /\
   1000 <= LiquidityMetrics.depth1Percent l) /\
  (length (RiskMetrics.warnings r) <= 6)%nat.
Proof.
  intros r. subst r. unfold RiskService.calculateRisk. simpl.
  unfold RiskService.generateWarnings, RiskService.calculateLiquidityRisk. simpl.
  split.
  - rewrite !app_nil_iff.
    assert (H1 : (if Qlt_bool 70 (100 - LiquidityMetrics.score l)
                  then ["⚠️ Very low liquidity - high slippage risk"]
                  else if Qlt_bool 50 (100 - LiquidityMetrics.score l)
                  then ["⚠️ Low liquidity - moderate slippage risk"]
                  else []) = [] <-> 50 <= LiquidityMetrics.score l).
    { destruct (Qlt_bool 70 _) eqn:E1;
        [apply Qlt_bool_true in E1 | apply Qlt_bool_false in E1];
        [split; [discriminate | intros; exfalso; lra]|].
      destruct (Qlt_bool 50 _) eqn:E2;
        [apply Qlt_bool_true in E2 | apply Qlt_bool_false in E2];
        split; try discriminate; try reflexivity; intros; try lra; exfalso; lra. }
    assert (H2 : (if Qlt_bool 2.0 (LiquidityMetrics.spreadPercent l)
                  then ["⚠️ Extremely wide spread - poor pricing"]
                  else if Qlt_bool 1.0 (LiquidityMetrics.spreadPercent l)
                  then ["⚠️ Wide spread - high transaction costs"]
                  else []) = [] <-> LiquidityMetrics.spreadPercent l <= 1).
    { destruct (Qlt_bool 2.0 _) eqn:E1;
        [apply Qlt_bool_true in E1 | apply Qlt_bool_false in E1];
        [split; [discriminate | intros; exfalso; lra]|].
      destruct (Qlt_bool 1.0 _) eqn:E2;
        [apply Qlt_bool_true in E2 | apply Qlt_bool_false in E2];
        split; try discriminate; try reflexivity; intros; try lra; exfalso; lra. }
    assert (H3 : match VolatilityMetrics.level v with
                 | VolatilityLevel.EXTREME => ["🔴 Extreme price volatility detected"]
                 | VolatilityLevel.HIGH => ["⚠️ High price volatility"]
                 | _ => []
                 end = [] <->
                 (VolatilityMetrics.level v = VolatilityLevel.LOW \/
                  VolatilityMetrics.level v = VolatilityLevel.MODERATE)).
    { destruct (VolatilityMetrics.level v); split; try discriminate; auto;
        intros [H | H]; discriminate. }
    assert (H4 : (if Qlt_bool (VolumeMetrics.tradeCount vol) 10
                  then ["⚠️ Very low trading activity"] else []) = []
                 <-> 10 <= VolumeMetrics.tradeCount vol).
    { destruct (Qlt_bool _ 10) eqn:E;
        [apply Qlt_bool_true in E | apply Qlt_bool_false in E];
        split; try discriminate; try reflexivity; intros; try lra; exfalso; lra. }
    assert (H5 : (if Qlt_bool (VolumeMetrics.volumeChange vol) (-50)
                  then ["📉 Significant volume decrease"] else []) = []
                 <-> -50 <= VolumeMetrics.volumeChange vol).
    { destruct (Qlt_bool _ (-50)) eqn:E;
        [apply Qlt_bool_true in E | apply Qlt_bool_false in E];
        split; try discriminate; try reflexivity; intros; try lra; exfalso; lra. }
    assert (H6 : (if Qlt_bool (LiquidityMetrics.depth1Percent l) 1000
                  then ["⚠️ Shallow orderbook depth"] else []) = []
                 <-> 1000 <= LiquidityMetrics.depth1Percent l).
    { destruct (Qlt_bool _ 1000) eqn:E;
        [apply Qlt_bool_true in E | apply Qlt_bool_false in E];
        split; try discriminate; try reflexivity; intros; try lra; exfalso; lra. }
    rewrite H1, H2, H3, H4, H5, H6. reflexivity.
  - rewrite !length_app.
    destruct (Qlt_bool 70 (100 - LiquidityMetrics.score l)),
      (Qlt_bool 50 (100 - LiquidityMetrics.score l)),
      (Qlt_bool 2.0 (LiquidityMetrics.spreadPercent l)),
      (Qlt_bool 1.0 (LiquidityMetrics.spreadPercent l)),
      (VolatilityMetrics.level v),
      (Qlt_bool (VolumeMetrics.tradeCount vol) 10),
      (Qlt_bool (VolumeMetrics.volumeChange vol) (-50)),
      (Qlt_bool (LiquidityMetrics.depth1Percent l) 1000); simpl; lia.
Qed.

Lemma calculateHealth_monotone_witness :
  let l := LiquidityMetrics.mk 65 100 100 200 200 200 0.1 0.5 20 0 in
  let l' := LiquidityMetrics.mk 70 150 150 300 300 300 0.02 0.1 20 0 in
  let v := VolatilityMetrics.mk 100 0 0 VolatilityLevel.LOW [] 0 20 0 in
  let vol := VolumeMetrics.mk 32 100 0 5 20 0 in
  LiquidityMetrics.score l <= LiquidityMetrics.score l' /\
  LiquidityMetrics.spreadPercent l' <= LiquidityMetrics.spreadPercent l /\
  HealthScore.score (HealthService.calculateHealth 0 l v vol)
  <= HealthScore.score (HealthService.calculateHealth 0 l' v vol).
Proof.
  intros l l' v vol.
  assert (H1 : LiquidityMetrics.score l <= LiquidityMetrics.score l')
    by (vm_compute; discriminate).
  assert (H2 : VolatilityMetrics.score v <= VolatilityMetrics.score v)
    by (vm_compute; discriminate).
  assert (H3 : VolumeMetrics.score vol <= VolumeMetrics.score vol)
    by (vm_compute; discriminate).
  assert (H4 : LiquidityMetrics.spreadPercent l' <= LiquidityMetrics.spreadPercent l)
    by (vm_compute; discriminate).
  split; [exact H1|]. split; [exact H4|].
  exact (proj1 (calculateHealth_monotone 0 0 l l' v v vol vol H1 H2 H3 H4)).
Defined.

Lemma calculateRisk_antitone_witness :
  let l := LiquidityMetrics.mk 65 100 100 200 200 200 0.1 0.5 20 0 in
  let l' := LiquidityMetrics.mk 70 150 150 300 300 300 0.02 0.1 20 0 in
  let v := VolatilityMetrics.mk 100 0 0 VolatilityLevel.LOW [] 0 20 0 in
  let vol := VolumeMetrics.mk 32 100 0 5 20 0 in
  LiquidityMetrics.score l <= LiquidityMetrics.score l' /\
  LiquidityMetrics.spreadPercent l' <= LiquidityMetrics.spreadPercent l /\
  RiskMetrics.score (RiskService.calculateRisk 0 l' v vol)
  <= RiskMetrics.score (RiskService.calculateRisk 0 l v vol).
Proof.
  intros l l' v vol.
  assert (H1 : LiquidityMetrics.score l <= LiquidityMetrics.score l')
    by (vm_compute; discriminate).
  assert (H2 : VolatilityMetrics.score v <= VolatilityMetrics.score v)
    by (vm_compute; discriminate).
  assert (H3 : VolumeMetrics.score vol <= VolumeMetrics.score vol)
    by (vm_compute; discriminate).
  assert (H4 : LiquidityMetrics.spreadPercent l' <= LiquidityMetrics.spreadPercent l)
    by (vm_compute; discriminate).
  split; [exact H1|]. split; [exact H4|].
  exact (proj1 (calculateRisk_antitone 0 0 l l' v v vol vol H1 H2 H3 H4)).
Defined.

Lemma overall_scores_between_witness :
  (0 <= 32)%Z /\ (100 <= 100)%Z /\
  inject_Z 32 <= HealthService.calculateOverallScore (HealthComponents.mk 65 100 32 60)
    <= inject_Z 100.
Proof.
  assert (Hlo : (0 <= 32)%Z) by lia.
  assert (Hhi : (100 <= 100)%Z) by lia.
  split; [exact Hlo|]. split; [exact Hhi|].
  apply (overall_scores_between 32 100 65 100 32 60 Hlo Hhi);
    split; vm_compute; discriminate.
Defined.

End AggregatorMore.

(** ** More on VolatilityService *)

Module VolatilityMore.
Section WithRuntime.
Context {rt : Runtime}.
Import VolatilityService.
Local Open Scope Q_scope.

Ltac split_levels :=
  unfold classifyVolatilityLevel;
  repeat match goal with
  | |- context [Qlt_bool ?a ?b] =>
      let E := fresh "E" in
      destruct (Qlt_bool a b) eqn:E;
      [apply Qlt_bool_true in E | apply Qlt_bool_false in E]
  end.

(** X9.  Below 7 percent the volatility score never rises with the
    volatility percentage, across the LOW, MODERATE and HIGH levels; nor
    does it from 7 percent on, inside the EXTREME level. *)
Theorem volatility_score_antitone_on_each_side (p p' : Q) :
  p <= p' ->
  p' < 7 \/ 7 <= p ->
  calculateVolatilityScore p' (classifyVolatilityLevel p')
  <= calculateVolatilityScore p (classifyVolatilityLevel p).
Proof.
  intros Hpp Hside. unfold calculateVolatilityScore.
  apply Math_round_le, Math_max_le, Math_min_le.
  split_levels; try (exfalso; destruct Hside; lra); try lra.
  apply Math_max_le. lra.
Qed.

(** X10.  At 7 percent the score jumps up: every volatility percentage
    from 6 up to 7 (level HIGH) scores at most 26, and every one from 7 to
    8 (level EXTREME) scores at least 27, so across that boundary a more
    volatile market gets the higher score. *)
Theorem volatility_score_rises_at_extreme (p p' : Q) :
  6 <= p -> p < 7 -> 7 <= p' -> p' <= 8 ->
  calculateVolatilityScore p (classifyVolatilityLevel p) <= 26 /\
  27 <= calculateVolatilityScore p' (classifyVolatilityLevel p') /\
  calculateVolatilityScore p (classifyVolatilityLevel p)
  < calculateVolatilityScore p' (classifyVolatilityLevel p').
Proof.
  intros H6 H7 H7' H8.
  assert (Hp : calculateVolatilityScore p (classifyVolatilityLevel p) <= 26).
  { change 26 with (inject_Z 26). rewrite <- (Math_round_inject_Z 26).
    unfold calculateVolatilityScore. apply Math_round_le.
    split_levels; try (exfalso; lra).
    change (inject_Z 26) with 26.
    apply Q.max_lub; [discriminate|].
    apply Qle_trans with (50 - (p - 3) * 8); [apply Q.le_min_r | lra]. }
  assert (Hp' : 27 <= calculateVolatilityScore p' (classifyVolatilityLevel p')).
  { change 27 with (inject_Z 27). rewrite <- (Math_round_inject_Z 27).
    unfold calculateVolatilityScore. apply Math_round_le.
    split_levels; try (exfalso; lra).
    change (inject_Z 27) with 27.
    apply Qle_trans with (Math_min 100 (Math_max 0 (30 - (p' - 7) * 3)));
      [|apply Q.le_max_r].
    apply Q.min_glb; [discriminate|].
    apply Qle_trans with (30 - (p' - 7) * 3); [lra | apply Q.le_max_r]. }
  split; [exact Hp|]. split; [exact Hp'|]. lra.
Qed.




Lemma calculatePriceChanges_length (prices : list Q) :
  length (calculatePriceChanges prices) = Nat.pred (length prices).
Proof.
  induction prices as [|prev rest IH]; [reflexivity|].
  destruct rest as [|cur rest]; [reflexivity|].
  change (calculatePriceChanges (prev :: cur :: rest))
    with ((cur - prev) / prev * 100 :: calculatePriceChanges (cur :: rest)).
  cbn [length Nat.pred] in *. now rewrite IH.
Qed.

Lemma filter_filter {A} (f : A -> bool) (l : list A) :
  List.filter f (List.filter f l) = List.filter f l.
Proof.
  induction l as [|x l IH]; [reflexivity|].
  simpl. destruct (f x) eqn:E; [|exact IH].
  simpl. now rewrite E, IH.
Qed.

(** X11.  Trades outside the window have no effect: adding, in front of or
    behind the trade list, trades executed before the cut-off leaves the
    result of [calculateVolatility] unchanged. *)
Theorem calculateVolatility_ignores_old_trades
    (now : Z) (trades old : list Trade.t) (windowMinutes : option Q) :
  (forall t, In t old -> inWindow now (default 60 windowMinutes) t = false) ->
  calculateVolatility now (trades ++ old) windowMinutes
  = calculateVolatility now trades windowMinutes /\
  calculateVolatility now (old ++ trades) windowMinutes
  = calculateVolatility now trades windowMinutes.
Proof.
  intros Hold. unfold calculateVolatility.
  rewrite !List.filter_app, (filter_none _ old Hold).
  now rewrite app_nil_r.
Qed.

(** X12.  The list of price changes has one entry less than there are
    trades in the window (and none when the window is empty). *)
Theorem priceChanges_length
    (now : Z) (trades : list Trade.t) (windowMinutes : option Q) :
  length (VolatilityMetrics.priceChanges
            (calculateVolatility now trades windowMinutes))
  = Nat.pred
      (length (List.filter (inWindow now (default 60 windowMinutes)) trades)).
Proof.
  unfold calculateVolatility.
  destruct (List.filter _ trades) as [|t recent] eqn:E; [reflexivity|].
  change (Nat.eqb (length (t :: recent)) 0) with false. cbv iota.
  cbn [VolatilityMetrics.priceChanges].
  now rewrite calculatePriceChanges_length, List.length_map.
Qed.








End WithRuntime.

Import VolatilityService.
Local Open Scope Q_scope.

Lemma volatility_score_antitone_on_each_side_witness :
  0.5 <= 2 /\ (2 < 7 \/ 7 <= 0.5) /\
  calculateVolatilityScore 2 (classifyVolatilityLevel 2)
  <= calculateVolatilityScore 0.5 (classifyVolatilityLevel 0.5).
Proof.
  assert (H1 : 0.5 <= 2) by (vm_compute; discriminate).
  assert (H2 : 2 < 7 \/ 7 <= 0.5) by (left; vm_compute; reflexivity).
  split; [exact H1|]. split; [exact H2|].
  exact (volatility_score_antitone_on_each_side 0.5 2 H1 H2).
Defined.

Lemma volatility_score_rises_at_extreme_witness :
  (6 <= 6.5 /\ 6.5 < 7 /\ 7 <= 7 /\ 7 <= 8) /\
  calculateVolatilityScore 6.5 (classifyVolatilityLevel 6.5) == 22 /\
  calculateVolatilityScore 7 (classifyVolatilityLevel 7) == 30 /\
  calculateVolatilityScore 6.5 (classifyVolatilityLevel 6.5)
  < calculateVolatilityScore 7 (classifyVolatilityLevel 7).
Proof.
  assert (H1 : 6 <= 6.5) by (vm_compute; discriminate).
  assert (H2 : 6.5 < 7) by (vm_compute; reflexivity).
  assert (H3 : 7 <= 7) by (vm_compute; discriminate).
  assert (H4 : 7 <= 8) by (vm_compute; discriminate).
  split; [repeat split; assumption|].
  split; [vm_compute; reflexivity|]. split; [vm_compute; reflexivity|].
  exact (proj2 (proj2 (volatility_score_rises_at_extreme 6.5 7 H1 H2 H3 H4))).
Defined.

Lemma calculateVolatility_ignores_old_trades_witness :
  (forall t, In t [Scenario.trade "30" "1" (Scenario.clock - 5400000)] ->
     inWindow Scenario.clock (default 60 None) t = false) /\
  calculateVolatility (rt := decimalRuntime) Scenario.clock
    (Scenario.steadyTrades ++ [Scenario.trade "30" "1" (Scenario.clock - 5400000)]) None
  = calculateVolatility (rt := decimalRuntime) Scenario.clock Scenario.steadyTrades None.
Proof.
  assert (H : forall t, In t [Scenario.trade "30" "1" (Scenario.clock - 5400000)] ->
     inWindow Scenario.clock (default 60 None) t = false).
  { intros t [<- | []]. vm_compute. reflexivity. }
  split; [exact H|].
  exact (proj1 (calculateVolatility_ignores_old_trades (rt := decimalRuntime)
                  Scenario.clock Scenario.steadyTrades _ None H)).
Defined.








End VolatilityMore.

(** ** VolumeService *)

Module VolumeProperties.
Section WithRuntime.
Context {rt : Runtime}.
Import VolumeService.
Local Open Scope Q_scope.

(** X15.  When no trade was executed in the last 24 hours (in particular
    for the empty list), [calculateVolume] returns the default metrics:
    score, volume, volume change, trade count and average trade size 0,
    whatever the previous period is. *)
Theorem calculateVolume_no_recent_trade
    (now : Z) (trades : list Trade.t) (period24hTrades : option (list Trade.t)) :
  (forall t, In t trades -> (Trade.executedAt t < now - 24 * 60 * 60 * 1000)%Z) ->
  let m := calculateVolume now trades period24hTrades in
  m = getDefaultMetrics now /\
  VolumeMetrics.score m = 0 /\
  VolumeMetrics.volume24h m = 0 /\
  VolumeMetrics.tradeCount m = 0.
Proof.
  intros Hold m.
  assert (E : m = getDefaultMetrics now).
  { subst m. unfold calculateVolume. rewrite filter_none; [reflexivity|].
    intros t Ht. apply Z.leb_gt. now apply Hold. }
  rewrite E. repeat split.
Qed.

Lemma notional_acc (trades : list Trade.t) (a : Q) :
  fold_left
    (fun sum trade =>
       sum + parseFloat (PositionDelta.executionPrice (Trade.positionDelta trade))
             * parseFloat (PositionDelta.executionQuantity (Trade.positionDelta trade)))
    trades a
  == a + notional trades.
Proof.
  unfold notional. revert a.
  induction trades as [|t trades IH]; intros a; simpl; [ring|].
  rewrite (IH (a + _)), (IH (0 + _)). ring.
Qed.

Lemma notional_nonneg (trades : list Trade.t) :
  (forall t, In t trades ->
     0 <= parseFloat (PositionDelta.executionPrice (Trade.positionDelta t)) /\
     0 <= parseFloat (PositionDelta.executionQuantity (Trade.positionDelta t))) ->
  0 <= notional trades.
Proof.
  induction trades as [|t trades IH]; intros H; [discriminate|].
  unfold notional. simpl. rewrite notional_acc.
  destruct (H t (or_introl eq_refl)) as [Hp Hq].
  assert (0 <= notional trades) by (apply IH; intros x Hx; apply H; now right).
  nra.
Qed.

(** X16.  When some trade was executed in the last 24 hours, the trade
    count is the number of such trades, the volume is the sum of price
    times quantity over them, and the average trade size is the volume
    divided by the trade count; when the prices and quantities of those
    trades are not negative, the average trade size lies between 0 and the
    volume. *)
Theorem calculateVolume_accounts
    (now : Z) (trades : list Trade.t) (period24hTrades : option (list Trade.t)) :
  (exists t, In t trades /\ (now - 24 * 60 * 60 * 1000 <= Trade.executedAt t)%Z) ->
  let recent :=
    List.filter
      (fun trade => Z.leb (now - 24 * 60 * 60 * 1000) (Trade.executedAt trade))
      trades in
  let m := calculateVolume now trades period24hTrades in
  VolumeMetrics.tradeCount m = inject_Z (Z.of_nat (length recent)) /\
  1 <= VolumeMetrics.tradeCount m /\
  VolumeMetrics.volume24h m = notional recent /\
  VolumeMetrics.averageTradeSize m
  = VolumeMetrics.volume24h m / VolumeMetrics.tradeCount m /\
  ((forall t, In t recent ->
      0 <= parseFloat (PositionDelta.executionPrice (Trade.positionDelta t)) /\
      0 <= parseFloat (PositionDelta.executionQuantity (Trade.positionDelta t))) ->
   0 <= VolumeMetrics.averageTradeSize m <= VolumeMetrics.volume24h m).
Proof.
  intros (t0 & Hin & Hrecent) recent m.
  assert (Hne : recent <> []).
  { intros E. assert (Hf : In t0 recent).
    { apply List.filter_In. split; [exact Hin | now apply Z.leb_le]. }
    rewrite E in Hf. destruct Hf. }
  subst m. unfold calculateVolume. fold recent.
  destruct recent as [|t rest] eqn:E; [congruence|].
  change (Nat.eqb (length (t :: rest)) 0) with false. cbv iota.
  cbn [VolumeMetrics.tradeCount VolumeMetrics.volume24h
       VolumeMetrics.averageTradeSize].
  assert (Hn : 1 <= inject_Z (Z.of_nat (length (t :: rest)))).
  { change 1 with (inject_Z 1). rewrite <- Zle_Qle. simpl. lia. }
  assert (Hb : Qlt_bool 0 (inject_Z (Z.of_nat (length (t :: rest)))) = true)
    by (apply Qlt_bool_true; lra).
  rewrite Hb.
  split; [reflexivity|]. split; [exact Hn|]. split; [reflexivity|].
  split; [reflexivity|].
  intros Hpos. apply notional_nonneg in Hpos.
  set (n := inject_Z (Z.of_nat (length (t :: rest)))) in *.
  set (v := notional (t :: rest)) in *.
  split.
  - apply Qle_shift_div_l; lra.
  - apply Qle_shift_div_r; [lra | nra].
Qed.


End WithRuntime.

Import VolumeService.
Local Open Scope Q_scope.

Lemma calculateVolume_no_recent_trade_witness :
  (forall t, In t Scenario.steadyTrades ->
     (Trade.executedAt t < (Scenario.clock + 90000000) - 24 * 60 * 60 * 1000)%Z) /\
  calculateVolume (rt := decimalRuntime) (Scenario.clock + 90000000)
    Scenario.steadyTrades None
  = getDefaultMetrics (Scenario.clock + 90000000).
Proof.
  assert (H : forall t, In t Scenario.steadyTrades ->
     (Trade.executedAt t < (Scenario.clock + 90000000) - 24 * 60 * 60 * 1000)%Z).
  { intros t [<- | [<- | [<- | [<- | [<- | []]]]]]; vm_compute; reflexivity. }
  split; [exact H|].
  exact (proj1 (calculateVolume_no_recent_trade (rt := decimalRuntime)
                  (Scenario.clock + 90000000) Scenario.steadyTrades None H)).
Defined.

Lemma steadyTrades_recent :
  exists t, In t Scenario.steadyTrades /\
            (Scenario.clock - 24 * 60 * 60 * 1000 <= Trade.executedAt t)%Z.
Proof.
  exists (Scenario.trade "20" "1" (Scenario.clock - 60000)).
  split; [now left | vm_compute; discriminate].
Defined.

Lemma steadyTrades_nonneg :
  forall t,
    In t (List.filter
            (fun trade =>
               Z.leb (Scenario.clock - 24 * 60 * 60 * 1000) (Trade.executedAt trade))
            Scenario.steadyTrades) ->
    0 <= parseFloat (Runtime := decimalRuntime)
           (PositionDelta.executionPrice (Trade.positionDelta t)) /\
    0 <= parseFloat (Runtime := decimalRuntime)
           (PositionDelta.executionQuantity (Trade.positionDelta t)).
Proof.
  intros t [<- | [<- | [<- | [<- | [<- | []]]]]]; split; vm_compute; discriminate.
Defined.

Lemma calculateVolume_accounts_witness :
  let m := calculateVolume (rt := decimalRuntime) Scenario.clock
             Scenario.steadyTrades None in
  VolumeMetrics.tradeCount m == 5 /\
  VolumeMetrics.volume24h m == 100 /\
  VolumeMetrics.averageTradeSize m == 20 /\
  0 <= VolumeMetrics.averageTradeSize m <= VolumeMetrics.volume24h m.
Proof.
  intros m.
  split; [vm_compute; reflexivity|]. split; [vm_compute; reflexivity|].
  split; [vm_compute; reflexivity|].
  exact (proj2 (proj2 (proj2 (proj2
    (calculateVolume_accounts (rt := decimalRuntime) Scenario.clock
       Scenario.steadyTrades None steadyTrades_recent)))) steadyTrades_nonneg).
Defined.


End VolumeProperties.

(** ** The range of the scores *)

Module AnalyzerBounds.
Section WithRuntime.
Context {rt : Runtime}.
Local Open Scope Q_scope.



End WithRuntime.

Local Open Scope Q_scope.


End AnalyzerBounds.

(** ** More on the cache *)

Module CacheMore.
Section WithData.
Context {T : Type}.
Variable cacheTTL : Q.
Local Open Scope Q_scope.

Lemma get_fst (c : Cache.t T) (key : string) (now : Z) :
  (Cache.get key now c).1
  = match Cache.store c !! key with
    | Some entry =>
        if Qlt_bool (CacheEntry.ttl entry)
             (inject_Z (now - CacheEntry.timestamp entry))
        then None else Some (CacheEntry.data entry)
    | None => None
    end.
Proof.
  unfold Cache.get. destruct (Cache.store c !! key) as [entry|]; [|reflexivity].
  now destruct (Qlt_bool _ _).
Qed.

Lemma get_store_other (c : Cache.t T) (key other : string) (now : Z) :
  key <> other ->
  Cache.store (Cache.get key now c).2 !! other = Cache.store c !! other.
Proof.
  intros Hne. unfold Cache.get.
  destruct (Cache.store c !! key) as [entry|]; [|reflexivity].
  destruct (Qlt_bool _ _); [|reflexivity].
  simpl. now apply lookup_delete_ne.
Qed.

(** X18.  Operations on one key leave the other keys alone: after a
    [set], a [get] or a [delete] of [key], the store holds for every other
    key the entry it held before, and a [get] of another key returns what
    it would have returned before. *)
Theorem other_keys_untouched
    (c : Cache.t T) (key other : string) (data : T) (ttlSeconds : option Q)
    (now later : Z) :
  key <> other ->
  let afterSet := Cache.set cacheTTL key data ttlSeconds now c in
  let afterGet := (Cache.get key now c).2 in
  let afterDelete := (Cache.delete key c).2 in
  (Cache.store afterSet !! other = Cache.store c !! other /\
   Cache.store afterGet !! other = Cache.store c !! other /\
   Cache.store afterDelete !! other = Cache.store c !! other) /\
  ((Cache.get other later afterSet).1 = (Cache.get other later c).1 /\
   (Cache.get other later afterGet).1 = (Cache.get other later c).1 /\
   (Cache.get other later afterDelete).1 = (Cache.get other later c).1).
Proof.
  intros Hne afterSet afterGet afterDelete.
  assert (E1 : Cache.store afterSet !! other = Cache.store c !! other)
    by (simpl; now apply lookup_insert_ne).
  assert (E2 : Cache.store afterGet !! other = Cache.store c !! other)
    by now apply get_store_other.
  assert (E3 : Cache.store afterDelete !! other = Cache.store c !! other)
    by (simpl; now apply lookup_delete_ne).
  split; [now repeat split|].
  rewrite !get_fst, E1, E2, E3. now repeat split.
Qed.

(** X19.  The last write wins: after two [set]s of the same key, a [get]
    within the time-to-live of the second one returns the second value. *)
Theorem last_set_wins
    (c : Cache.t T) (key : string) (first second : T)
    (ttl1 ttl2 : option Q) (t1 t2 now : Z) :
  inject_Z (now - t2) <= default cacheTTL ttl2 * 1000 ->
  (Cache.get key now
     (Cache.set cacheTTL key second ttl2 t2
        (Cache.set cacheTTL key first ttl1 t1 c))).1
  = Some second.
Proof.
  intros Hage. rewrite get_fst. simpl. rewrite lookup_insert_eq. simpl.
  apply Qlt_bool_false in Hage. now rewrite Hage.
Qed.

Lemma cleanup_lookup (c : Cache.t T) (key : string) (now : Z) (entry : CacheEntry.t T) :
  Cache.store (Cache.cleanup now c) !! key = Some entry <->
  Cache.store c !! key = Some entry /\
  inject_Z (now - CacheEntry.timestamp entry) <= CacheEntry.ttl entry.
Proof.
  unfold Cache.cleanup. simpl. rewrite map_lookup_filter_Some. simpl.
  now rewrite Qlt_bool_false.
Qed.

(** X20.  [cleanup] removes exactly the entries that are expired at its
    clock reading, and is invisible to readers: a [get] at that time or
    later returns the same value with or without the sweep. *)
Theorem cleanup_removes_expired_only
    (c : Cache.t T) (key : string) (now later : Z) :
  (now <= later)%Z ->
  (forall entry,
     Cache.store (Cache.cleanup now c) !! key = Some entry <->
     Cache.store c !! key = Some entry /\
     inject_Z (now - CacheEntry.timestamp entry) <= CacheEntry.ttl entry) /\
  (Cache.get key later (Cache.cleanup now c)).1 = (Cache.get key later c).1.
Proof.
  intros Hlater. split; [intros entry; apply cleanup_lookup|].
  rewrite !get_fst.
  destruct (Cache.store c !! key) as [entry|] eqn:E.
  - destruct (Qlt_bool (CacheEntry.ttl entry)
                (inject_Z (now - CacheEntry.timestamp entry))) eqn:Hexp.
    + assert (Hgone : Cache.store (Cache.cleanup now c) !! key = None).
      { destruct (Cache.store (Cache.cleanup now c) !! key) as [e|] eqn:E'; [|reflexivity].
        apply cleanup_lookup in E' as [E1 E2]. rewrite E in E1. injection E1 as <-.
        apply Qlt_bool_false in E2. congruence. }
      rewrite Hgone.
      apply Qlt_bool_true in Hexp.
      assert (Hexp' : Qlt_bool (CacheEntry.ttl entry)
                        (inject_Z (later - CacheEntry.timestamp entry)) = true).
      { apply Qlt_bool_true. eapply Qlt_le_trans; [exact Hexp|].
        rewrite <- Zle_Qle. lia. }
      now rewrite Hexp'.
    + assert (Hkept : Cache.store (Cache.cleanup now c) !! key = Some entry).
      { apply cleanup_lookup. split; [exact E | now apply Qlt_bool_false]. }
      now rewrite Hkept.
  - assert (Hnone : Cache.store (Cache.cleanup now c) !! key = None).
    { destruct (Cache.store (Cache.cleanup now c) !! key) as [e|] eqn:E'; [|reflexivity].
      apply cleanup_lookup in E' as [E1 _]. congruence. }
    now rewrite Hnone.
Qed.

(** X21.  [delete] reports whether the key was present, and a [get] of
    the deleted key is then a miss that returns null and leaves the store
    as it is. *)
Theorem delete_then_get (c : Cache.t T) (key : string) (now : Z) :
  let d := Cache.delete key c in
  (d.1 = true <-> is_Some (Cache.store c !! key)) /\
  Cache.store d.2 !! key = None /\
  (Cache.get key now d.2).1 = None /\
  Cache.store (Cache.get key now d.2).2 = Cache.store d.2 /\
  CacheStats.misses (Cache.stats (Cache.get key now d.2).2)
  = S (CacheStats.misses (Cache.stats c)).
Proof.
  intros d. subst d. unfold Cache.delete. simpl.
  split; [apply bool_decide_eq_true|].
  split; [apply lookup_delete_eq|].
  unfold Cache.get. simpl. rewrite lookup_delete_eq. now repeat split.
Qed.

Lemma step_counters (c : Cache.t T) (o : CacheTrace.op T) :
  let c' := CacheTrace.step cacheTTL c o in
  (CacheStats.hits (Cache.stats c') + CacheStats.misses (Cache.stats c')
   = CacheStats.hits (Cache.stats c) + CacheStats.misses (Cache.stats c)
     + (if CacheTrace.isGet o then 1 else 0))%nat /\
  (CacheStats.sets (Cache.stats c')
   = CacheStats.sets (Cache.stats c) + (if CacheTrace.isSet o then 1 else 0))%nat.
Proof.
  destruct o as [key data ttl now | key now | key | | now]; simpl;
    try (split; lia).
  unfold Cache.get. destruct (Cache.store c !! key) as [entry|];
    [destruct (Qlt_bool _ _)|]; simpl; split; lia.
Qed.

(** X22.  The counters count the calls: after any sequence of [set],
    [get], [delete], [clear] and [cleanup] calls, hits plus misses has
    grown by the number of [get]s and the set counter by the number of
    [set]s; no other call touches a counter.  The hit rate reported by
    [getStats] lies between 0 and 100. *)
Theorem counters_count_calls (ops : list (CacheTrace.op T)) (c : Cache.t T) :
  let c' := CacheTrace.run cacheTTL ops c in
  (Cache.stats_total (Cache.getStats c')
   = Cache.stats_total (Cache.getStats c)
     + length (List.filter CacheTrace.isGet ops))%nat /\
  (Cache.stats_sets (Cache.getStats c')
   = Cache.stats_sets (Cache.getStats c)
     + length (List.filter CacheTrace.isSet ops))%nat /\
  0 <= Cache.stats_hitRate (Cache.getStats c') <= 100.
Proof.
  intros c'. subst c'. split; [|split].
  - revert c. induction ops as [|o ops IH]; intros c; [simpl; lia|].
    unfold CacheTrace.run in *. simpl fold_left. rewrite IH.
    destruct (step_counters c o) as [Hs _]. simpl in *.
    rewrite Hs. destruct (CacheTrace.isGet o); simpl; lia.
  - revert c. induction ops as [|o ops IH]; intros c; [simpl; lia|].
    unfold CacheTrace.run in *. simpl fold_left. rewrite IH.
    destruct (step_counters c o) as [_ Hs]. simpl in *.
    rewrite Hs. destruct (CacheTrace.isSet o); simpl; lia.
  - generalize (CacheTrace.run cacheTTL ops c). intros c1.
    unfold Cache.getStats. simpl.
    set (h := CacheStats.hits (Cache.stats c1)).
    set (m := CacheStats.misses (Cache.stats c1)).
    destruct (Nat.ltb 0 (h + m)) eqn:E; [|split; discriminate].
    apply Nat.ltb_lt in E.
    assert (Hn : 0 < inject_Z (Z.of_nat (h + m))).
    { change 0 with (inject_Z 0). rewrite <- Zlt_Qlt. lia. }
    assert (Hh : 0 <= inject_Z (Z.of_nat h)).
    { change 0 with (inject_Z 0). rewrite <- Zle_Qle. lia. }
    assert (Hhm : inject_Z (Z.of_nat h) <= inject_Z (Z.of_nat (h + m))).
    { rewrite <- Zle_Qle. lia. }
    assert (H0 : 0 <= inject_Z (Z.of_nat h) / inject_Z (Z.of_nat (h + m)))
      by (apply Qle_shift_div_l; [exact Hn | lra]).
    assert (H1 : inject_Z (Z.of_nat h) / inject_Z (Z.of_nat (h + m)) <= 1)
      by (apply Qle_shift_div_r; [exact Hn | lra]).
    set (r := inject_Z (Z.of_nat h) / inject_Z (Z.of_nat (h + m))) in *.
    lra.
Qed.

End WithData.

Local Open Scope Q_scope.

Lemma other_keys_untouched_witness :
  "risk:INJ-USDT" <> "health:INJ-USDT" /\
  (Cache.get "health:INJ-USDT" 2000
     (Cache.set 30 "risk:INJ-USDT" 7%Z None 1500
        (Cache.set 30 "health:INJ-USDT" 85%Z None 1000 Cache.empty))).1
  = Some 85%Z.
Proof.
  assert (Hne : "risk:INJ-USDT" <> "health:INJ-USDT") by discriminate.
  split; [exact Hne|].
  destruct (other_keys_untouched 30
              (Cache.set 30 "health:INJ-USDT" 85%Z None 1000 Cache.empty)
              "risk:INJ-USDT" "health:INJ-USDT" 7%Z None 1500 2000 Hne)
    as (_ & E & _).
  rewrite E. reflexivity.
Defined.

Lemma last_set_wins_witness :
  inject_Z (2000 - 1500) <= default 30 None * 1000 /\
  (Cache.get "risk:INJ-USDT" 2000
     (Cache.set 30 "risk:INJ-USDT" 8%Z None 1500
        (Cache.set 30 "risk:INJ-USDT" 7%Z None 1000 Cache.empty))).1
  = Some 8%Z.
Proof.
  assert (H : inject_Z (2000 - 1500) <= default 30 None * 1000)
    by (vm_compute; discriminate).
  split; [exact H|].
  exact (last_set_wins 30 Cache.empty "risk:INJ-USDT" 7%Z 8%Z None None 1000 1500 2000 H).
Defined.

Lemma cleanup_removes_expired_only_witness :
  (40000 <= 41000)%Z /\
  (Cache.get "risk:INJ-USDT" 41000
     (Cache.cleanup 40000 (Cache.set 30 "risk:INJ-USDT" 7%Z None 1000 Cache.empty))).1
  = (Cache.get "risk:INJ-USDT" 41000
       (Cache.set 30 "risk:INJ-USDT" 7%Z None 1000 Cache.empty)).1.
Proof.
  assert (H : (40000 <= 41000)%Z) by lia.
  split; [exact H|].
  exact (proj2 (cleanup_removes_expired_only
                  (Cache.set 30 "risk:INJ-USDT" 7%Z None 1000 Cache.empty)
                  "risk:INJ-USDT" 40000 41000 H)).
Defined.

End CacheMore.

(** ** More on the stream store *)

Module StreamMore.

Lemma removelast_take {A} (l : list A) :
  removelast l = take (Nat.pred (length l)) l.
Proof.
  induction l as [|x l IH]; [reflexivity|].
  destruct l as [|y l]; [reflexivity|].
  change (removelast (x :: y :: l)) with (x :: removelast (y :: l)).
  rewrite IH. reflexivity.
Qed.

Lemma take_app_take {A} (n : nat) (l1 l2 : list A) :
  take n (l1 ++ take n l2) = take n (l1 ++ l2).
Proof.
  rewrite !take_app. f_equal. rewrite take_take. f_equal. lia.
Qed.

Lemma getTrades_addTrade (s : StreamStore.t) (marketId : string) (trade : Trade.t) :
  (length (StreamStore.getTrades marketId s) <= StreamStore.MAX_TRADES_PER_MARKET)%nat ->
  StreamStore.getTrades marketId (StreamStore.addTrade marketId trade s)
  = take StreamStore.MAX_TRADES_PER_MARKET
      (trade :: StreamStore.getTrades marketId s).
Proof.
  unfold StreamStore.getTrades, StreamStore.addTrade. cbn [StreamStore.trades].
  rewrite lookup_insert_eq. cbn [default from_option].
  set (existing := from_option id [] (StreamStore.trades s !! marketId)).
  intros Hlen.
  destruct (Nat.ltb StreamStore.MAX_TRADES_PER_MARKET (length (trade :: existing)))
    eqn:E.
  - apply Nat.ltb_lt in E. rewrite removelast_take. cbv [id].
    f_equal. simpl in *. unfold StreamStore.MAX_TRADES_PER_MARKET in *. lia.
  - apply Nat.ltb_ge in E. cbv [id]. symmetry. apply take_ge. exact E.
Qed.

(** X23.  The trade history of a market is bounded and newest first:
    starting from a history of at most 100 trades, after the trades
    [added] have been added one by one the history is the 100 newest
    trades, the last added first; in particular it never holds more than
    100 trades. *)
Theorem trade_history_bounded
    (s : StreamStore.t) (marketId : string) (added : list Trade.t) :
  (length (StreamStore.getTrades marketId s) <= StreamStore.MAX_TRADES_PER_MARKET)%nat ->
  let s' := fold_left (fun st trade => StreamStore.addTrade marketId trade st) added s in
  StreamStore.getTrades marketId s'
  = take StreamStore.MAX_TRADES_PER_MARKET
      (rev added ++ StreamStore.getTrades marketId s) /\
  (length (StreamStore.getTrades marketId s') <= StreamStore.MAX_TRADES_PER_MARKET)%nat.
Proof.
  revert s. induction added as [|trade added IH]; intros s Hlen s'.
  - subst s'. simpl. split; [symmetry; now apply take_ge | exact Hlen].
  - subst s'. simpl fold_left.
    assert (Hlen' : (length (StreamStore.getTrades marketId
                               (StreamStore.addTrade marketId trade s))
                     <= StreamStore.MAX_TRADES_PER_MARKET)%nat).
    { rewrite getTrades_addTrade by exact Hlen. rewrite length_take. lia. }
    destruct (IH _ Hlen') as [E L]. split; [|exact L].
    rewrite E, getTrades_addTrade by exact Hlen.
    rewrite take_app_take. simpl rev. now rewrite <- app_assoc.
Qed.

(** X24.  Adding a trade for one market changes neither the trade
    histories of the other markets nor any stored order book, and storing
    an order book changes no trade history. *)
Theorem markets_are_independent
    (s : StreamStore.t) (marketId other : string) (trade : Trade.t)
    (orderbook : OrderbookData.t) :
  marketId <> other ->
  StreamStore.getTrades other (StreamStore.addTrade marketId trade s)
  = StreamStore.getTrades other s /\
  (forall any, StreamStore.getOrderbook any (StreamStore.addTrade marketId trade s)
               = StreamStore.getOrderbook any s) /\
  (forall any, StreamStore.getTrades any (StreamStore.setOrderbook marketId orderbook s)
               = StreamStore.getTrades any s).
Proof.
  intros Hne. split; [|split; reflexivity].
  unfold StreamStore.getTrades, StreamStore.addTrade. cbn [StreamStore.trades].
  now rewrite lookup_insert_ne.
Qed.

(** X25.  [clear] with a non-empty market identifier forgets the order
    book and the trades of that market and of no other; with no
    identifier, or with the empty string, it forgets every market. *)
Theorem clear_forgets
    (s : StreamStore.t) (marketId : option string) (any : string) :
  let s' := StreamStore.clear marketId s in
  (marketId = None \/ marketId = Some EmptyString ->
   StreamStore.getOrderbook any s' = None /\ StreamStore.getTrades any s' = []) /\
  (forall id, marketId = Some id -> id <> EmptyString ->
     StreamStore.getOrderbook id s' = None /\
     StreamStore.getTrades id s' = [] /\
     (id <> any ->
      StreamStore.getOrderbook any s' = StreamStore.getOrderbook any s /\
      StreamStore.getTrades any s' = StreamStore.getTrades any s)).
Proof.
  intros s'. subst s'. split.
  - intros [-> | ->]; simpl; unfold StreamStore.getOrderbook, StreamStore.getTrades;
      simpl; now rewrite !lookup_empty.
  - intros id -> Hid. destruct id as [|a rest]; [congruence|].
    unfold StreamStore.getOrderbook, StreamStore.getTrades. simpl.
    rewrite !lookup_delete_eq. split; [reflexivity|]. split; [reflexivity|].
    intros Hne. now rewrite !lookup_delete_ne.
Qed.

Lemma trade_history_bounded_witness :
  (length (StreamStore.getTrades "INJ-USDT" StreamStore.empty)
   <= StreamStore.MAX_TRADES_PER_MARKET)%nat /\
  StreamStore.getTrades "INJ-USDT"
    (fold_left (fun st trade => StreamStore.addTrade "INJ-USDT" trade st)
       Scenario.steadyTrades StreamStore.empty)
  = rev Scenario.steadyTrades.
Proof.
  assert (H : (length (StreamStore.getTrades "INJ-USDT" StreamStore.empty)
               <= StreamStore.MAX_TRADES_PER_MARKET)%nat)
    by (vm_compute; lia).
  split; [exact H|].
  rewrite (proj1 (trade_history_bounded StreamStore.empty "INJ-USDT"
                    Scenario.steadyTrades H)).
  reflexivity.
Defined.

Lemma markets_are_independent_witness :
  "INJ-USDT" <> "ATOM-USDT" /\
  StreamStore.getTrades "ATOM-USDT"
    (StreamStore.addTrade "INJ-USDT" (Scenario.trade "20" "1" 0) StreamStore.empty)
  = [].
Proof.
  assert (Hne : "INJ-USDT" <> "ATOM-USDT") by discriminate.
  split; [exact Hne|].
  rewrite (proj1 (markets_are_independent StreamStore.empty "INJ-USDT" "ATOM-USDT"
                    (Scenario.trade "20" "1" 0) Scenario.tightBook Hne)).
  reflexivity.
Defined.

End StreamMore.

(** ** The best market and the identifier list of the comparison route *)

Module CompareMore.
Local Open Scope Q_scope.

Lemma fold_better_first_maximal (rest : list Comparison.t) (acc : Comparison.t) :
  let best := fold_left CompareBest.better rest acc in
  (best = acc /\
   forall c, In c rest -> Comparison.healthScore c <= Comparison.healthScore acc) \/
  (exists before after,
     rest = before ++ best :: after /\
     Comparison.healthScore acc < Comparison.healthScore best /\
     (forall c, In c before -> Comparison.healthScore c < Comparison.healthScore best) /\
     (forall c, In c after -> Comparison.healthScore c <= Comparison.healthScore best)).
Proof.
  revert acc. induction rest as [|x rest IH]; intros acc best.
  - left. split; [reflexivity | intros c []].
  - subst best.
    change (fold_left CompareBest.better (x :: rest) acc)
      with (fold_left CompareBest.better rest (CompareBest.better acc x)).
    assert (Hstep : CompareBest.better acc x
                    = if Qlt_bool (Comparison.healthScore acc) (Comparison.healthScore x)
                      then x else acc) by reflexivity.
    destruct (Qlt_bool (Comparison.healthScore acc) (Comparison.healthScore x)) eqn:E;
      [apply Qlt_bool_true in E | apply Qlt_bool_false in E]; rewrite Hstep.
    + destruct (IH x) as [[Eb Hle] | (before & after & Er & Hlt & Hb & Ha)].
      * right. exists [], rest. rewrite Eb. repeat split; auto. intros c [].
      * right. exists (x :: before), after. rewrite Er at 1.
        split; [reflexivity|]. split; [lra|]. split; [|exact Ha].
        intros c [<- | Hc]; [exact Hlt | now apply Hb].
    + destruct (IH acc) as [[Eb Hle] | (before & after & Er & Hlt & Hb & Ha)].
      * left. split; [exact Eb|]. intros c [<- | Hc]; [exact E | now apply Hle].
      * right. exists (x :: before), after. rewrite Er at 1.
        split; [reflexivity|]. split; [exact Hlt|]. split; [|exact Ha].
        intros c [<- | Hc]; [lra | now apply Hb].
Qed.

(** X26.  The best market of a comparison is the first entry of highest
    health score among the entries without error: there is none exactly
    when every entry failed, and otherwise every valid entry before it
    scores strictly lower and every valid entry after it scores at most as
    high. *)
Theorem bestMarket_first_maximal (comparisons : list Comparison.t) :
  (CompareBest.bestMarket comparisons = None <->
   CompareBest.validComparisons comparisons = []) /\
  (forall best,
     CompareBest.bestMarket comparisons = Some best ->
     Comparison.noError best = true /\
     In best comparisons /\
     exists before after,
       CompareBest.validComparisons comparisons = before ++ best :: after /\
       (forall c, In c before ->
          Comparison.healthScore c < Comparison.healthScore best) /\
       (forall c, In c after ->
          Comparison.healthScore c <= Comparison.healthScore best)).
Proof.
  unfold CompareBest.bestMarket.
  destruct (CompareBest.validComparisons comparisons) as [|first rest] eqn:E.
  - split; [tauto | discriminate].
  - split; [split; discriminate|].
    intros best [= <-].
    assert (Hsplit : exists before after,
      first :: rest = before ++ fold_left CompareBest.better rest first :: after /\
      (forall c, In c before ->
         Comparison.healthScore c
         < Comparison.healthScore (fold_left CompareBest.better rest first)) /\
      (forall c, In c after ->
         Comparison.healthScore c
         <= Comparison.healthScore (fold_left CompareBest.better rest first))).
    { destruct (fold_better_first_maximal rest first)
        as [[Eb Hle] | (before & after & Er & Hlt & Hb & Ha)].
      - exists [], rest. rewrite Eb. split; [reflexivity|].
        split; [intros c [] | exact Hle].
      - exists (first :: before), after. rewrite Er at 1.
        split; [reflexivity|]. split; [|exact Ha].
        intros c [<- | Hc]; [exact Hlt | now apply Hb]. }
    assert (Hin : In (fold_left CompareBest.better rest first)
                     (CompareBest.validComparisons comparisons)).
    { rewrite E. destruct Hsplit as (before & after & Er & _).
      rewrite Er. apply in_or_app. right. now left. }
    apply List.filter_In in Hin as [Hin Hvalid].
    split; [exact Hvalid|]. split; [exact Hin | exact Hsplit].
Qed.

Lemma split_not_nil (sep : ascii) (s : string) : CompareRoute.split sep s <> [].
Proof.
  destruct s as [|a s]; simpl; [discriminate|].
  destruct (Ascii.eqb a sep); [discriminate|].
  destruct (CompareRoute.split sep s); discriminate.
Qed.

Lemma concat_cons_cons (sep x y : string) (l : list string) :
  String.concat sep (x :: y :: l) = x +:+ sep +:+ String.concat sep (y :: l).
Proof. reflexivity. Qed.

Lemma concat_split (s : string) :
  String.concat "," (CompareRoute.split "," s) = s.
Proof.
  induction s as [|a s IH]; [reflexivity|].
  simpl CompareRoute.split.
  destruct (Ascii.eqb a ",") eqn:E.
  - apply Ascii.eqb_eq in E as ->.
    destruct (CompareRoute.split "," s) as [|piece pieces] eqn:Es.
    + now destruct (split_not_nil "," s).
    + rewrite concat_cons_cons, IH. reflexivity.
  - destruct (CompareRoute.split "," s) as [|piece pieces] eqn:Es.
    + now destruct (split_not_nil "," s).
    + rewrite <- IH. destruct pieces as [|p pieces]; reflexivity.
Qed.

Lemma split_pieces_commaFree (s : string) :
  Forall (fun piece => Spec.commaFree piece = true) (CompareRoute.split "," s).
Proof.
  induction s as [|a s IH]; [repeat constructor|].
  simpl CompareRoute.split.
  destruct (Ascii.eqb a ",") eqn:E.
  - constructor; [reflexivity | exact IH].
  - destruct (CompareRoute.split "," s) as [|piece pieces].
    + repeat constructor. simpl. now rewrite E.
    + inversion IH as [|? ? Hp Hps]; subst.
      constructor; [|exact Hps]. simpl. now rewrite E, Hp.
Qed.

(** X27.  Splitting at the commas and joining with commas are inverse to
    each other: joining the pieces of any string gives the string back,
    the pieces contain no comma, and splitting the join of a non-empty
    list of comma-free strings gives the list back. *)
Theorem split_and_join_are_inverse :
  (forall s, String.concat "," (CompareRoute.split "," s) = s) /\
  (forall s, Forall (fun piece => Spec.commaFree piece = true)
               (CompareRoute.split "," s)) /\
  (forall ids,
     ids <> [] ->
     Forall (fun id => Spec.commaFree id = true) ids ->
     CompareRoute.split "," (String.concat "," ids) = ids).
Proof.
  split; [exact concat_split|].
  split; [exact split_pieces_commaFree | exact CompareProperties.split_concat].
Qed.

End CompareMore.

(** ** Validators *)

Module ValidatorProperties.
Import Validators.

(** The characters a market identifier is made of. *)
Local Abbreviation idChar := (fun a : ascii => isAlnum a || Ascii.eqb a "-").

Lemma allChars_impl (f g : ascii -> bool) (s : string) :
  (forall a, f a = true -> g a = true) ->
  allChars f s = true -> allChars g s = true.
Proof.
  intros Hfg. induction s as [|a s IH]; [reflexivity|]. simpl.
  intros [Ha Hs]%andb_true_iff. now rewrite (Hfg a Ha), (IH Hs).
Qed.

Lemma allChars_app (f : ascii -> bool) (s1 s2 : string) :
  allChars f (s1 +:+ s2) = allChars f s1 && allChars f s2.
Proof.
  induction s1 as [|a s1 IH]; [reflexivity|]. simpl. now rewrite IH, andb_assoc.
Qed.

Lemma isHexDigit_isAlnum (a : ascii) : isHexDigit a = true -> isAlnum a = true.
Proof. destruct a as [[] [] [] [] [] [] [] []]; vm_compute; congruence. Qed.

Lemma idChar_plain (a : ascii) :
  idChar a = true -> Ascii.eqb a "," = false /\ Ascii.is_space a = false.
Proof. destruct a as [[] [] [] [] [] [] [] []]; vm_compute; intuition congruence. Qed.

Lemma span_spec (f : ascii -> bool) (s prefix suffix : string) :
  span f s = (prefix, suffix) ->
  s = prefix +:+ suffix /\ allChars f prefix = true.
Proof.
  revert prefix suffix. induction s as [|a s IH]; intros prefix suffix.
  - simpl. intros [= <- <-]. now split.
  - simpl. destruct (f a) eqn:Ea.
    + destruct (span f s) as [p r]. intros [= <- <-].
      destruct (IH p r eq_refl) as [-> Hp]. split; [reflexivity|].
      simpl. now rewrite Ea, Hp.
    + intros [= <- <-]. now split.
Qed.

Lemma hexPattern_inv (val : string) :
  hexPattern val = true ->
  exists digits,
    val = String "0" (String "x" digits) /\
    String.length digits = 64%nat /\ allChars isHexDigit digits = true.
Proof.
  intros H. destruct val as [|a val]; [discriminate|].
  destruct val as [|b digits];
    destruct a as [[] [] [] [] [] [] [] []]; simpl in H; try discriminate.
  destruct b as [[] [] [] [] [] [] [] []]; simpl in H; try discriminate.
  apply andb_true_iff in H as [Hlen Hd]. apply Nat.eqb_eq in Hlen.
  now exists digits.
Qed.

Lemma tickerPattern_inv (val : string) :
  tickerPattern val = true ->
  exists base quote,
    val = base +:+ String "-" quote /\
    base <> EmptyString /\ quote <> EmptyString /\
    allChars isAlnum base = true /\ allChars isAlnum quote = true.
Proof.
  unfold tickerPattern.
  destruct (span isAlnum val) as [base rest] eqn:Es.
  apply span_spec in Es as [-> Hbase].
  destruct base as [|a base]; [discriminate|].
  destruct rest as [|c rest]; [discriminate|].
  intros H.
  destruct c as [[] [] [] [] [] [] [] []]; simpl in H; try discriminate.
  destruct rest as [|q quote]; [discriminate|].
  exists (String a base), (String q quote).
  repeat split; try discriminate; assumption.
Qed.

(** An accepted identifier is not empty and is made of letters, digits and
    hyphens only. *)
Lemma marketIdSchema_chars (val : string) :
  marketIdSchema val = true ->
  val <> EmptyString /\ allChars idChar val = true.
Proof.
  unfold marketIdSchema. intros [H | H]%orb_true_iff.
  - apply hexPattern_inv in H as (digits & -> & _ & Hd).
    split; [discriminate|].
    simpl. apply (allChars_impl isHexDigit); [|exact Hd].
    intros a Ha. now rewrite (isHexDigit_isAlnum a Ha).
  - apply tickerPattern_inv in H as (base & quote & -> & Hb & _ & Hab & Haq).
    split; [destruct base; [congruence | discriminate]|].
    rewrite allChars_app. apply andb_true_iff. split.
    + apply (allChars_impl isAlnum); [|exact Hab].
      intros x Hx. now rewrite Hx.
    + change (allChars idChar (String "-" quote)) with (allChars idChar quote).
      apply (allChars_impl isAlnum); [|exact Haq].
      intros x Hx. now rewrite Hx.
Qed.

(** No string matches both forms of a market identifier: the
    66-character hexadecimal form has no hyphen, and the ticker form has
    exactly one, between two non-empty alphanumeric parts. *)
Lemma identifier_forms_are_disjoint (val : string) :
  (hexPattern val = true ->
   String.length val = 66%nat /\ allChars isAlnum val = true /\
   tickerPattern val = false) /\
  (tickerPattern val = true ->
   exists base quote,
     val = base +:+ String "-" quote /\
     base <> EmptyString /\ quote <> EmptyString /\
     allChars isAlnum base = true /\ allChars isAlnum quote = true /\
     hexPattern val = false).
Proof.
  assert (Hhex : hexPattern val = true ->
            String.length val = 66%nat /\ allChars isAlnum val = true).
  { intros H. apply hexPattern_inv in H as (digits & -> & Hlen & Hd).
    split; [simpl; now rewrite Hlen|].
    simpl. apply (allChars_impl isHexDigit); [exact isHexDigit_isAlnum | exact Hd]. }
  assert (Hexcl : hexPattern val = true -> tickerPattern val = true -> False).
  { intros H1 H2. destruct (Hhex H1) as [_ Ha].
    destruct (tickerPattern_inv val H2) as (base & quote & -> & _ & _ & _ & _).
    rewrite allChars_app in Ha. apply andb_true_iff in Ha as [_ Ha].
    simpl in Ha. discriminate. }
  split.
  - intros H. destruct (Hhex H) as [H1 H2]. split; [exact H1|]. split; [exact H2|].
    apply not_true_iff_false. intros E. exact (Hexcl H E).
  - intros H.
    destruct (tickerPattern_inv val H) as (base & quote & E & Hb & Hq & Hab & Haq).
    exists base, quote. repeat split; try assumption.
    apply not_true_iff_false. intros E'. exact (Hexcl E' H).
Qed.

Lemma rev_app_rev_app (s acc acc' : string) :
  String.rev_app (String.rev_app s acc) acc' = String.rev_app acc (s +:+ acc').
Proof.
  revert acc acc'. induction s as [|a s IH]; intros acc acc'; [reflexivity|].
  simpl. now rewrite IH.
Qed.

Lemma append_empty_r (s : string) : s +:+ EmptyString = s.
Proof.
  induction s as [|a s IH]; [reflexivity|].
  change (String a (s +:+ EmptyString) = String a s). now rewrite IH.
Qed.

Lemma rev_involutive (s : string) : String.rev (String.rev s) = s.
Proof.
  unfold String.rev. rewrite rev_app_rev_app. simpl. apply append_empty_r.
Qed.

Lemma allChars_rev_app (f : ascii -> bool) (s acc : string) :
  allChars f (String.rev_app s acc) = allChars f s && allChars f acc.
Proof.
  revert acc. induction s as [|a s IH]; intros acc; [reflexivity|].
  simpl. rewrite IH. simpl. destruct (f a), (allChars f s); reflexivity.
Qed.

Lemma trimStart_plain (s : string) :
  allChars (fun a => negb (Ascii.is_space a)) s = true ->
  CompareRoute.trimStart s = s.
Proof.
  destruct s as [|a s]; [reflexivity|]. simpl.
  intros [Ha _]%andb_true_iff. apply negb_true_iff in Ha. now rewrite Ha.
Qed.

(** Trimming leaves a string without white space as it is. *)
Lemma trim_plain (s : string) :
  allChars (fun a => negb (Ascii.is_space a)) s = true ->
  CompareRoute.trim s = s.
Proof.
  intros H. unfold CompareRoute.trim.
  rewrite (trimStart_plain s H).
  rewrite trimStart_plain.
  - apply rev_involutive.
  - unfold String.rev. rewrite allChars_rev_app, H. reflexivity.
Qed.

Lemma marketIdSchema_plain (id : string) :
  marketIdSchema id = true ->
  Spec.commaFree id = true /\ CompareRoute.trim id = id /\
  Nat.ltb 0 (String.length id) = true.
Proof.
  intros H. destruct (marketIdSchema_chars id H) as [Hne Hchars].
  split; [|split].
  - clear Hne H. induction id as [|a id IH]; [reflexivity|].
    simpl in *. apply andb_true_iff in Hchars as [Ha Hid].
    destruct (idChar_plain a Ha) as [Hc _]. now rewrite Hc, (IH Hid).
  - apply trim_plain. apply (allChars_impl idChar); [|exact Hchars].
    intros a Ha. destruct (idChar_plain a Ha) as [_ Hs]. now rewrite Hs.
  - destruct id; [congruence | reflexivity].
Qed.

Lemma find_none {A} (f : A -> bool) (l : list A) :
  (forall x, In x l -> f x = false) -> List.find f l = None.
Proof.
  induction l as [|x l IH]; intros H; [reflexivity|].
  simpl. rewrite (H x) by now left. apply IH. intros y Hy. apply H. now right.
Qed.

(** X28.  A market list the schema accepts holds between 1 and 10
    identifiers, none empty, each accepted by [marketIdSchema]. *)
Theorem marketListSchema_accepts_valid_lists (val : string) (markets : list string) :
  marketListSchema val = inr markets ->
  (1 <= length markets <= 10)%nat /\
  Forall (fun market => marketIdSchema market = true /\ market <> EmptyString) markets.
Proof.
  unfold marketListSchema.
  set (ms := List.filter _ (List.map CompareRoute.trim (CompareRoute.split "," val))).
  destruct (Nat.eqb (length ms) 0) eqn:E0; [discriminate|].
  destruct (Nat.ltb 10 (length ms)) eqn:E10; [discriminate|].
  destruct (List.find _ ms) as [bad|] eqn:Ef; [discriminate|].
  intros [= <-]. apply Nat.eqb_neq in E0. apply Nat.ltb_ge in E10.
  split; [lia|].
  apply List.Forall_forall. intros m Hm.
  pose proof (List.find_none _ _ Ef m Hm) as Hv. apply negb_false_iff in Hv.
  split; [exact Hv|]. apply (marketIdSchema_chars m Hv).
Qed.

(** X29.  Round trip: the comma-separated list of 1 to 10 identifiers,
    each accepted by [marketIdSchema], is accepted by [marketListSchema],
    which returns exactly those identifiers in their order. *)
Theorem marketListSchema_round_trip (ids : list string) :
  (1 <= length ids <= 10)%nat ->
  Forall (fun id => marketIdSchema id = true) ids ->
  marketListSchema (String.concat "," ids) = inr ids.
Proof.
  intros [Hlo Hhi] Hvalid.
  assert (Hne : ids <> []) by (intros ->; simpl in Hlo; lia).
  assert (Hplain : Forall (fun id => Spec.commaFree id = true /\
                                     CompareRoute.trim id = id /\
                                     Nat.ltb 0 (String.length id) = true) ids).
  { eapply List.Forall_impl; [|exact Hvalid]. intros id. apply marketIdSchema_plain. }
  assert (Hfree : Forall (fun id => Spec.commaFree id = true) ids).
  { eapply List.Forall_impl; [|exact Hplain]. now intros id (H & _). }
  rewrite List.Forall_forall in Hplain.
  unfold marketListSchema.
  rewrite (CompareProperties.split_concat ids Hne Hfree).
  assert (Etrim : List.map CompareRoute.trim ids = ids).
  { rewrite <- (List.map_id ids) at 2. apply List.map_ext_in.
    intros id Hid. now destruct (Hplain id Hid) as (_ & H & _). }
  rewrite Etrim.
  rewrite filter_all by (intros id Hid; now destruct (Hplain id Hid) as (_ & _ & H)).
  assert (E0 : Nat.eqb (length ids) 0 = false) by (apply Nat.eqb_neq; lia).
  assert (E10 : Nat.ltb 10 (length ids) = false) by (apply Nat.ltb_ge; lia).
  rewrite E0, E10.
  rewrite find_none; [reflexivity|].
  intros id Hid. apply negb_false_iff.
  rewrite List.Forall_forall in Hvalid. now apply Hvalid.
Qed.

Lemma marketListSchema_accepts_valid_lists_witness :
  marketListSchema " inj-usdt , ,ATOM-USDT" = inr ["inj-usdt"; "ATOM-USDT"] /\
  (1 <= length ["inj-usdt"; "ATOM-USDT"] <= 10)%nat.
Proof.
  assert (H : marketListSchema " inj-usdt , ,ATOM-USDT" = inr ["inj-usdt"; "ATOM-USDT"])
    by reflexivity.
  split; [exact H|].
  exact (proj1 (marketListSchema_accepts_valid_lists _ _ H)).
Defined.

Lemma marketListSchema_round_trip_witness :
  (1 <= length ["INJ-USDT"; "ATOM-USDT"] <= 10)%nat /\
  Forall (fun id => marketIdSchema id = true) ["INJ-USDT"; "ATOM-USDT"] /\
  marketListSchema "INJ-USDT,ATOM-USDT" = inr ["INJ-USDT"; "ATOM-USDT"].
Proof.
  assert (Hlen : (1 <= length ["INJ-USDT"; "ATOM-USDT"] <= 10)%nat) by (simpl; lia).
  assert (Hvalid : Forall (fun id => marketIdSchema id = true) ["INJ-USDT"; "ATOM-USDT"])
    by (repeat constructor).
  split; [exact Hlen|]. split; [exact Hvalid|].
  exact (marketListSchema_round_trip ["INJ-USDT"; "ATOM-USDT"] Hlen Hvalid).
Defined.

End ValidatorProperties.

(** ** formatUptime *)

Module StatusProperties.
Import StatusRoute.
Local Open Scope Q_scope.

Lemma Qfloor_div_pos (x : Q) (k : Z) :
  (0 < k)%Z -> Qfloor (x / inject_Z k) = (Qfloor x / k)%Z.
Proof.
  intros Hk.
  assert (Hk' : 0 < inject_Z k) by (change 0 with (inject_Z 0); now rewrite <- Zlt_Qlt).
  pose proof (Qfloor_le x) as Hlo. pose proof (Qlt_floor x) as Hhi.
  pose proof (Z.mul_div_le (Qfloor x) k Hk) as Hd1.
  pose proof (Z.mul_succ_div_gt (Qfloor x) k Hk) as Hd2.
  apply Qfloor_unique.
  - apply Qle_shift_div_l; [exact Hk'|].
    rewrite <- inject_Z_mult. apply Qle_trans with (inject_Z (Qfloor x)); [|exact Hlo].
    rewrite <- Zle_Qle. lia.
  - apply Qlt_shift_div_r; [exact Hk'|].
    rewrite <- inject_Z_mult.
    apply Qlt_le_trans with (inject_Z (Qfloor x + 1)); [exact Hhi|].
    rewrite <- Zle_Qle. lia.
Qed.

Lemma Qfloor_minus_Z (x : Q) (z : Z) : Qfloor (x - inject_Z z) = (Qfloor x - z)%Z.
Proof.
  pose proof (Qfloor_le x) as Hlo. pose proof (Qlt_floor x) as Hhi.
  apply Qfloor_unique.
  - unfold Z.sub. rewrite inject_Z_plus, inject_Z_opp. lra.
  - replace (Qfloor x - z + 1)%Z with (Qfloor x + 1 - z)%Z by lia.
    unfold Z.sub. rewrite inject_Z_plus, inject_Z_opp. lra.
Qed.

(** For a non-negative dividend [a % k] is [a - k * floor (a / k)], whose
    integer part is the integer remainder. *)
Lemma Qfloor_remainder (x : Q) (k : Z) :
  0 <= x -> (0 < k)%Z ->
  Qfloor (remainder x (inject_Z k)) = (Qfloor x mod k)%Z.
Proof.
  intros Hx Hk. unfold remainder, truncate.
  assert (Hk' : 0 < inject_Z k) by (change 0 with (inject_Z 0); now rewrite <- Zlt_Qlt).
  assert (Hq : Qle_bool 0 (x / inject_Z k) = true).
  { apply Qle_bool_iff. apply Qle_shift_div_l; [exact Hk' | lra]. }
  rewrite Hq, Qfloor_div_pos by exact Hk.
  rewrite <- inject_Z_mult, Qfloor_minus_Z.
  rewrite Z.mod_eq by lia. reflexivity.
Qed.

(** X30.  For a non-negative number of seconds, the four parts of the
    formatted uptime decompose its integer part: days times 86400 plus
    hours times 3600 plus minutes times 60 plus seconds, with the hours
    below 24 and the minutes and seconds below 60, none negative. *)
Theorem uptime_parts_decompose (seconds : Q) :
  0 <= seconds ->
  let '(days, hours, minutes, secs) := uptimeParts seconds in
  (Qfloor seconds = days * 86400 + hours * 3600 + minutes * 60 + secs)%Z /\
  (0 <= days)%Z /\ (0 <= hours < 24)%Z /\ (0 <= minutes < 60)%Z /\
  (0 <= secs < 60)%Z.
Proof.
  intros Hs. unfold uptimeParts.
  change 86400 with (inject_Z 86400). change 3600 with (inject_Z 3600).
  change 60 with (inject_Z 60).
  rewrite !Qfloor_div_pos by lia.
  rewrite !Qfloor_remainder by (try exact Hs; lia).
  assert (Hn : (0 <= Qfloor seconds)%Z) by (apply Qfloor_lower; exact Hs).
  generalize dependent (Qfloor seconds). intros n Hn.
  Z.div_mod_to_equations. lia.
Qed.

Lemma uptime_parts_decompose_witness :
  0 <= 90061.5 /\
  uptimeParts 90061.5 = (1, 1, 1, 1)%Z /\
  formatUptime 90061.5 = "1d 1h 1m 1s" /\
  (Qfloor 90061.5 = 1 * 86400 + 1 * 3600 + 1 * 60 + 1)%Z.
Proof.
  assert (H : 0 <= 90061.5) by (vm_compute; discriminate).
  split; [exact H|]. split; [reflexivity|]. split; [reflexivity|].
  pose proof (uptime_parts_decompose 90061.5 H) as D.
  change (uptimeParts 90061.5) with (1, 1, 1, 1)%Z in D.
  exact (proj1 D).
Defined.

End StatusProperties.
